(** * Dataset assembly and sanitization (data/dataset.py)

    A shallow embedding of the classes [Dataset] and [MLDataset] of
    [data/dataset.py], together with the fragments of NumPy they call
    ([np.vstack], [np.delete], [np.append], [np.isfinite], [astype]).

    Conventions of the model:
    - a Python method is a computation in a state-and-exception monad; the
      state survives a raised exception, as attribute assignments do in
      Python;
    - a two-dimensional array is a list of rows together with its column
      count (NumPy keeps the column count of an array with no rows);
    - array cells are dynamically typed Python values, and the dtype of
      an array is read off its cells: float64 when every cell is a float
      (an array without cells is float64, as [np.array([])] is), int64
      when every cell is an integer of that range, uint64 when every cell
      is an integer from 0 to 2^64 - 1 and some cell is beyond int64, text
      when every cell is text, and object otherwise;
    - a callback receives the batch by value: in-place modification of the
      batch by a callback is outside the model. *)

From Stdlib Require Import Ascii String DecimalString ZArith Bool Arith Lia List.
From Stdlib Require Import SpecFloat.
Import ListNotations.

Set Implicit Arguments.

Open Scope string_scope.
Open Scope list_scope.
Open Scope nat_scope.

(** ** Exceptions and results *)

Inductive exn : Type :=
| NameError (name : string)
| TypeError
| ValueError
| IndexError
| AxisError
| AttributeError
| OverflowError.

Inductive result (A : Type) : Type :=
| Ok (a : A)
| Err (e : exn).

Arguments Ok {A} a.
Arguments Err {A} e.

(** ** The monad of methods: state of type [W], exceptions [exn] *)

Definition M (W A : Type) : Type := W -> result A * W.

Definition ret {W A} (a : A) : M W A := fun w => (Ok a, w).

Definition bind {W A B} (m : M W A) (k : A -> M W B) : M W B :=
  fun w => match m w with
           | (Ok a, w') => k a w'
           | (Err e, w') => (Err e, w')
           end.

Definition lift {W A} (r : result A) : M W A := fun w => (r, w).

Definition gets {W A} (f : W -> A) : M W A := fun w => (Ok (f w), w).

Definition modify {W} (f : W -> W) : M W unit := fun w => (Ok tt, f w).

Declare Scope py_scope.
Delimit Scope py_scope with py.
Notation "x <- m ;; k" := (bind m (fun x => k))
  (at level 61, m at next level, right associativity) : py_scope.
Notation "m ;; k" := (bind m (fun _ => k))
  (at level 61, right associativity) : py_scope.
Open Scope py_scope.

(** [for x in l: acc = body acc x], the loop-carried locals being [acc]. *)
Fixpoint for_in {W A B} (l : list B) (body : A -> B -> M W A) (acc : A) : M W A :=
  match l with
  | [] => ret acc
  | x :: l' => acc' <- body acc x ;; for_in l' body acc'
  end.

(** ** Python values held in array cells *)

Inductive value : Type :=
| VFloat (f : spec_float)
| VInt (z : Z)
| VStr (s : string)
| VNone
| VRepr (f : spec_float).

(** [VRepr f] is a cell of text too: the text NumPy writes for the float
    [f] when a float is cast into an array of text. Its digits are not
    computed. *)

(** [isinstance(val, float)]; NumPy's float64 scalars are instances too. *)
Definition isinstance_float (val : value) : bool :=
  match val with VFloat _ => true | _ => false end.

(** [val is None] *)
Definition is_None (val : value) : bool :=
  match val with VNone => true | _ => false end.

Definition float_isfinite (f : spec_float) : bool :=
  match f with
  | S754_zero _ | S754_finite _ _ _ => true
  | S754_infinity _ | S754_nan => false
  end.

(** An integer that NumPy holds in a machine integer (int64 or uint64);
    a larger one becomes an array of objects. *)
Definition fits_machine_int (z : Z) : bool :=
  ((- 2 ^ 63 <=? z) && (z <? 2 ^ 64))%Z.

(** [np.isfinite(val)] on a scalar: defined on floats and machine
    integers, a [TypeError] on objects, strings and [None]. *)
Definition np_isfinite (val : value) : result bool :=
  match val with
  | VFloat f => Ok (float_isfinite f)
  | VInt z => if fits_machine_int z then Ok true else Err TypeError
  | VStr _ | VNone | VRepr _ => Err TypeError
  end.

(** ** Arrays *)

Definition row : Type := list value.

Record ndarray2 : Type := Array2 { rows : list row; ncols : nat }.

Definition ndarray1 : Type := list value.

(** [len(a)] where [a] is an array or [None] *)
Definition py_len2 (a : option ndarray2) : result nat :=
  match a with
  | Some d => Ok (length (rows d))
  | None => Err TypeError
  end.

(** [a[i]] for a two-dimensional array and [i >= 0] *)
Definition getitem2 (a : option ndarray2) (i : nat) : result row :=
  match a with
  | Some d => match nth_error (rows d) i with
              | Some r => Ok r
              | None => Err IndexError
              end
  | None => Err TypeError
  end.

(** [a[i]] for a one-dimensional array and [i >= 0] *)
Definition getitem1 (a : option ndarray1) (i : nat) : result value :=
  match a with
  | Some t => match nth_error t i with
              | Some v => Ok v
              | None => Err IndexError
              end
  | None => Err TypeError
  end.

(** The mask NumPy builds in [np.delete] for a list of indices:
    [keep = ones(N); keep[obj] = False; arr[keep]]. *)
Definition keep_mask (n : nat) (obj : list nat) : list bool :=
  map (fun i => negb (existsb (Nat.eqb i) obj)) (seq 0 n).

Fixpoint take_mask {A} (arr : list A) (keep : list bool) : list A :=
  match arr, keep with
  | x :: arr', b :: keep' =>
      if b then x :: take_mask arr' keep' else take_mask arr' keep'
  | _, _ => []
  end.

(** [np.delete(arr, obj, 0)] on the first axis, [obj] a list of
    non-negative indices; an index past the end is an [IndexError]. *)
Definition delete_axis0 {A} (arr : list A) (obj : list nat) : result (list A) :=
  if forallb (fun i => i <? length arr) obj
  then Ok (take_mask arr (keep_mask (length arr) obj))
  else Err IndexError.

Definition np_delete2 (a : option ndarray2) (obj : list nat) : result ndarray2 :=
  match a with
  | Some d => match delete_axis0 (rows d) obj with
              | Ok rs => Ok (Array2 rs (ncols d))
              | Err e => Err e
              end
  | None => Err AxisError
  end.

Definition np_delete1 (a : option ndarray1) (obj : list nat) : result ndarray1 :=
  match a with
  | Some t => delete_axis0 t obj
  | None => Err AxisError
  end.

(** *** The dtype of an array and the cast of its cells *)

Inductive dtype : Type :=
| DFloat
| DInt
| DUInt
| DText
| DObject.

Definition is_float_cell (v : value) : bool :=
  match v with VFloat _ => true | _ => false end.

Definition is_int64_cell (v : value) : bool :=
  match v with
  | VInt z => ((- 2 ^ 63 <=? z) && (z <? 2 ^ 63))%Z
  | _ => false
  end.

Definition is_uint64_cell (v : value) : bool :=
  match v with
  | VInt z => ((0 <=? z) && (z <? 2 ^ 64))%Z
  | _ => false
  end.

Definition is_text_cell (v : value) : bool :=
  match v with VStr _ | VRepr _ => true | _ => false end.

Definition dtype_of_cells (cells : list value) : dtype :=
  if forallb is_float_cell cells then DFloat
  else if forallb is_int64_cell cells then DInt
  else if forallb is_uint64_cell cells then DUInt
  else if forallb is_text_cell cells then DText
  else DObject.

Definition dtype1 (a : ndarray1) : dtype := dtype_of_cells a.

Definition dtype2 (a : ndarray2) : dtype := dtype_of_cells (concat (rows a)).

(** The dtype NumPy gives to the join of two arrays: integers go to
    float beside floats, and so do int64 beside uint64; numbers go to text
    beside text, and everything stays as it is beside objects. *)
Definition promote (d1 d2 : dtype) : dtype :=
  match d1, d2 with
  | DObject, _ | _, DObject => DObject
  | DText, _ | _, DText => DText
  | DFloat, _ | _, DFloat => DFloat
  | DInt, DInt => DInt
  | DUInt, DUInt => DUInt
  | DInt, DUInt | DUInt, DInt => DFloat
  end.

(** The double nearest to an integer *)
Definition float_of_int (z : Z) : spec_float := binary_normalize 53 1024 z 0 false.

(** [str(z)] *)
Definition text_of_int (z : Z) : string := NilZero.string_of_int (Z.to_int z).

(** The cast of a cell into an array of the given dtype *)
Definition cast_to (d : dtype) (v : value) : value :=
  match d, v with
  | DFloat, VInt z => VFloat (float_of_int z)
  | DText, VFloat f => VRepr f
  | DText, VInt z => VStr (text_of_int z)
  | _, _ => v
  end.

Definition cast_rows (d : dtype) (rs : list row) : list row :=
  map (map (cast_to d)) rs.

(** The rows of [a] above the rows of [b], all cast to the common dtype *)
Definition stacked_rows (a b : ndarray2) : list row :=
  let d := promote (dtype2 a) (dtype2 b) in
  cast_rows d (rows a) ++ cast_rows d (rows b).

(** [np.vstack((a, b))]: the column counts must agree; the result has the
    common dtype of the two. *)
Definition np_vstack (a b : ndarray2) : result ndarray2 :=
  if ncols a =? ncols b
  then Ok (Array2 (stacked_rows a b) (ncols a))
  else Err ValueError.

(** ** class Dataset *)

Record Dataset : Type := mkDataset {
  data : option ndarray2;
  col_names : option (list string)
}.

Definition set_data (d : option ndarray2) (self : Dataset) : Dataset :=
  mkDataset d (col_names self).

Definition set_col_names (c : option (list string)) (self : Dataset) : Dataset :=
  mkDataset (data self) c.

(** The test of [Dataset._sanitize] and [MLDataset._sanitize],
    [not isinstance(val, float) or (val is None) or not np.isfinite(val)],
    with Python's left-to-right short-circuit evaluation. *)
Definition field_is_bad (val : value) : result bool :=
  if negb (isinstance_float val) then Ok true
  else if is_None val then Ok true
  else match np_isfinite val with
       | Ok fin => Ok (negb fin)
       | Err e => Err e
       end.

(** The inner loop: [for val in r: if <bad>: delrow = True]. *)
Definition scan_fields {W} (r : list value) (delrow : bool) : M W bool :=
  for_in r (fun delrow val =>
              bad <- lift (field_is_bad val) ;;
              ret (if bad then true else delrow)) delrow.

(** The body of [for i in range(len(self.data))] in [Dataset._sanitize];
    the fields scanned are [self.data[i][2:]]. *)
Definition Dataset_sanitize_row (delrows : list nat) (i : nat) : M Dataset (list nat) :=
  r <- (d <- gets data ;; lift (getitem2 d i)) ;;
  delrow <- scan_fields (skipn 2 r) false ;;
  ret (if delrow : bool then delrows ++ [i] else delrows).

(** [Dataset._sanitize] *)
Definition Dataset_sanitize : M Dataset unit :=
  n <- (d <- gets data ;; lift (py_len2 d)) ;;
  delrows <- for_in (seq 0 n) Dataset_sanitize_row [] ;;
  d' <- (d <- gets data ;; lift (np_delete2 d delrows)) ;;
  modify (set_data (Some d')).

(** [Dataset.__len__] *)
Definition Dataset_len : M Dataset nat :=
  d <- gets data ;; lift (py_len2 d).

(** [Dataset.__iter__]: the rows in table order *)
Definition Dataset_iter : M Dataset (list row) :=
  d <- gets data ;;
  match d with
  | Some a => ret (rows a)
  | None => lift (Err TypeError)
  end.

(** [Dataset.raw_data] *)
Definition Dataset_raw_data : M Dataset (option ndarray2) := gets data.

(** ** class MLDataset(Dataset) *)

Record MLDataset : Type := mkMLDataset {
  ml_dataset : Dataset;
  target : option ndarray1
}.

Definition ml_data (self : MLDataset) : option ndarray2 := data (ml_dataset self).

Definition ml_col_names (self : MLDataset) : option (list string) :=
  col_names (ml_dataset self).

Definition ml_set_data (d : option ndarray2) (self : MLDataset) : MLDataset :=
  mkMLDataset (set_data d (ml_dataset self)) (target self).

Definition set_target (t : option ndarray1) (self : MLDataset) : MLDataset :=
  mkMLDataset (ml_dataset self) t.

(** The test on the target entry,
    [(self.target[i] is None) or (not np.isfinite(self.target[i]))]. *)
Definition target_is_bad (i : nat) : M MLDataset bool :=
  t <- (tg <- gets target ;; lift (getitem1 tg i)) ;;
  if is_None t then ret true
  else t' <- (tg <- gets target ;; lift (getitem1 tg i)) ;;
       fin <- lift (np_isfinite t') ;;
       ret (negb fin).

(** The body of [for i in range(len(self.data))] in
    [MLDataset._sanitize]; the fields scanned are [self.data[i]], the
    whole row. *)
Definition MLDataset_sanitize_row (delrows : list nat) (i : nat) : M MLDataset (list nat) :=
  r <- (d <- gets ml_data ;; lift (getitem2 d i)) ;;
  delrow <- scan_fields r false ;;
  bad <- target_is_bad i ;;
  let delrow := if bad : bool then true else delrow in
  ret (if delrow : bool then delrows ++ [i] else delrows).

(** [MLDataset._sanitize] *)
Definition MLDataset_sanitize : M MLDataset unit :=
  n <- (d <- gets ml_data ;; lift (py_len2 d)) ;;
  delrows <- for_in (seq 0 n) MLDataset_sanitize_row [] ;;
  d' <- (d <- gets ml_data ;; lift (np_delete2 d delrows)) ;;
  modify (ml_set_data (Some d')) ;;
  t' <- (tg <- gets target ;; lift (np_delete1 tg delrows)) ;;
  modify (set_target (Some t')).

(** [np.append(a, b)] without an axis, on one-dimensional arrays: the
    entries of [a] then those of [b], all cast to the common dtype *)
Definition np_append_flat (a b : ndarray1) : ndarray1 :=
  let d := promote (dtype1 a) (dtype1 b) in
  map (cast_to d) a ++ map (cast_to d) b.

(** A user function taking a batch; [None] is not callable. *)
Definition call_target_function
    (target_function : option (ndarray2 -> result ndarray1))
    (batch : ndarray2) : result ndarray1 :=
  match target_function with
  | Some f => f batch
  | None => Err TypeError
  end.

(** [MLDataset._generate_callback]: the closure [_function] over [self]. *)
Definition MLDataset_generate_callback
    (target_function : option (ndarray2 -> result ndarray1))
    : ndarray2 -> M MLDataset unit :=
  fun batch =>
    tg <- gets target ;;
    match tg with
    | None =>
        t <- lift (call_target_function target_function batch) ;;
        modify (set_target (Some t))
    | Some cur =>
        t <- lift (call_target_function target_function batch) ;;
        modify (set_target (Some (np_append_flat cur t)))
    end.

(** ** Arrays of either rank, for [np.append(..., axis=1)] *)

Inductive ndarray : Type :=
| Rank1 (a : ndarray1)
| Rank2 (a : ndarray2).

Definition ndim (a : ndarray) : nat :=
  match a with Rank1 _ => 1 | Rank2 _ => 2 end.

Fixpoint column (j : nat) (rs : list row) : list value :=
  match rs with
  | [] => []
  | r :: rs' => nth j r VNone :: column j rs'
  end.

(** [a.T]: a one-dimensional array is its own transpose. *)
Definition transpose (a : ndarray) : ndarray :=
  match a with
  | Rank1 t => Rank1 t
  | Rank2 d =>
      Rank2 (Array2 (map (fun j => column j (rows d)) (seq 0 (ncols d)))
                    (length (rows d)))
  end.

Fixpoint zip_rows (xs ys : list row) : list row :=
  match xs, ys with
  | x :: xs', y :: ys' => (x ++ y) :: zip_rows xs' ys'
  | _, _ => []
  end.

(** [np.append(arr, values, axis=1)], that is
    [concatenate((arr, values), axis=1)]: both arrays must have the same
    number of dimensions, at least two, and the same number of rows. *)
Definition np_append_axis1 (arr values : ndarray) : result ndarray :=
  if negb (ndim arr =? ndim values) then Err ValueError
  else match arr, values with
       | Rank2 a, Rank2 b =>
           if length (rows a) =? length (rows b)
           then let d := promote (dtype2 a) (dtype2 b) in
                Ok (Rank2 (Array2 (zip_rows (cast_rows d (rows a))
                                            (cast_rows d (rows b)))
                                  (ncols a + ncols b)))
           else Err ValueError
       | _, _ => Err AxisError
       end.

(** [iter(a)] on an array: its elements along the first axis, scalars
    for a one-dimensional array and rows for a two-dimensional one *)
Definition np_iter (a : ndarray) : list (value + ndarray1) :=
  match a with
  | Rank1 t => map inl t
  | Rank2 d => map inr (rows d)
  end.

(** [MLDataset.__iter__]:
    [iter(np.append(self.data, self.target.T, axis=1))].  [None] has no
    attribute [T]; [None] as first argument becomes a zero-dimensional
    array, which [concatenate] rejects. *)
Definition MLDataset_iter : M MLDataset (list (value + ndarray1)) :=
  d <- gets ml_data ;;
  tg <- gets target ;;
  tT <- lift (match tg with
              | Some t => Ok (transpose (Rank1 t))
              | None => Err AttributeError
              end) ;;
  joined <- lift (match d with
                  | Some a => np_append_axis1 (Rank2 a) tT
                  | None => Err ValueError
                  end) ;;
  ret (np_iter joined).

(** ** Coercion to float: [astype(float)] *)

Section Astype.

(** Python's parser of float literals, [float(s)]; [None] when the text
    is not a number. *)
Variable float_of_string : string -> option spec_float.

(** binary64 *)
Definition prec64 : Z := 53.
Definition emax64 : Z := 1024.

(** The cast of one cell: floats are kept, integers are rounded to the
    nearest double, [None] becomes NaN, text is parsed; the text written
    for a float reads back as that float. *)
Definition to_float (val : value) : result spec_float :=
  match val with
  | VFloat f => Ok f
  | VInt z =>
      match binary_normalize prec64 emax64 z 0 false with
      | S754_infinity _ => Err OverflowError
      | f => Ok f
      end
  | VStr s =>
      match float_of_string s with
      | Some f => Ok f
      | None => Err ValueError
      end
  | VNone => Ok S754_nan
  | VRepr f => Ok f
  end.

Fixpoint astype_float_row (r : row) : result row :=
  match r with
  | [] => Ok []
  | v :: r' =>
      match to_float v with
      | Err e => Err e
      | Ok f => match astype_float_row r' with
                | Err e => Err e
                | Ok fs => Ok (VFloat f :: fs)
                end
      end
  end.

Fixpoint astype_float_rows (rs : list row) : result (list row) :=
  match rs with
  | [] => Ok []
  | r :: rs' =>
      match astype_float_row r with
      | Err e => Err e
      | Ok fr => match astype_float_rows rs' with
                 | Err e => Err e
                 | Ok frs => Ok (fr :: frs)
                 end
      end
  end.

Definition astype_float2 (a : ndarray2) : result ndarray2 :=
  match astype_float_rows (rows a) with
  | Ok rs => Ok (Array2 rs (ncols a))
  | Err e => Err e
  end.

(** [a[:]] is the whole array; [a[2:]] slices the first axis. *)
Definition slice_all (a : ndarray2) : ndarray2 := a.

Definition slice_from (k : nat) (a : ndarray2) : ndarray2 :=
  Array2 (skipn k (rows a)) (ncols a).

(** [MLDataset.training_data]:
    [np.array(self.data[:][2:]).astype(float)] *)
Definition MLDataset_training_data : M MLDataset ndarray2 :=
  d <- gets ml_data ;;
  match d with
  | Some a => lift (astype_float2 (slice_from 2 (slice_all a)))
  | None => lift (Err TypeError)
  end.

(** [MLDataset.target_data]: [self.target.astype(float)] *)
Definition MLDataset_target_data : M MLDataset ndarray1 :=
  tg <- gets target ;;
  match tg with
  | Some t => lift (astype_float_row t)
  | None => lift (Err AttributeError)
  end.

End Astype.

(** ** Construction *)

(** Objects that have the attributes of a [Dataset]: instances of
    [Dataset] itself (paired with whatever state a user callback acts on)
    and instances of its subclass [MLDataset]. *)
Class DatasetLike (S : Type) : Type := {
  as_dataset : S -> Dataset;
  with_dataset : Dataset -> S -> S;
  as_with : forall d s, as_dataset (with_dataset d s) = d;
  with_as : forall s, with_dataset (as_dataset s) s = s;
  with_with : forall d d' s, with_dataset d (with_dataset d' s) = with_dataset d s
}.

#[export] Instance Dataset_with_user (U : Type) : DatasetLike (Dataset * U).
Proof.
  refine {| as_dataset := fst; with_dataset := fun d s => (d, snd s) |}.
  - reflexivity.
  - intros [d u]; reflexivity.
  - reflexivity.
Defined.

#[export] Instance MLDataset_is_Dataset : DatasetLike MLDataset.
Proof.
  refine {| as_dataset := ml_dataset;
            with_dataset := fun d s => mkMLDataset d (target s) |}.
  - reflexivity.
  - intros [d t]; reflexivity.
  - reflexivity.
Defined.

(** What a run of the constructor does, in order: the retrieval of a
    symbol, a call of the callback on a batch, the storing of a batch into
    the table. The trace is not visible to the program. *)
Inductive event : Type :=
| EvFetch (ticker : string)
| EvCallback (batch : ndarray2)
| EvAppend (batch : ndarray2).

Record world (S : Type) : Type := mkWorld {
  self : S;
  trace : list event
}.

Arguments mkWorld {S} self trace.

Definition log {S} (e : event) : M (world S) unit :=
  modify (fun w => mkWorld (self w) (trace w ++ [e])).

(** A method or callback acting on the object, run inside the world *)
Definition on_self {S A} (m : M S A) : M (world S) A :=
  fun w => let (r, s') := m (self w) in (r, mkWorld s' (trace w)).

Section Construction.

Context {S : Type} `{DatasetLike S}.

(** [utilities.get_raw_data]: the table of a symbol and its column
    names, or an exception. *)
Variable get_raw_data : string -> result (ndarray2 * list string).

(** Values an argument or a name can hold: [None], a function, another
    object that is true and cannot be called, and a callable object that
    is false in a test (one whose [__nonzero__] or [__len__] says so, such
    as an empty container with a [__call__]) *)
Inductive pyobj : Type :=
| PyNone
| PyFunc (f : ndarray2 -> M S unit)
| PyObject
| PyFalsyCallable (f : ndarray2 -> M S unit).

(** The truth value [if o:] tests *)
Definition truthy (o : pyobj) : bool :=
  match o with
  | PyNone | PyFalsyCallable _ => false
  | PyFunc _ | PyObject => true
  end.

Definition call (o : pyobj) (arg : ndarray2) : M S unit :=
  match o with
  | PyFunc f | PyFalsyCallable f => f arg
  | PyNone | PyObject => lift (Err TypeError)
  end.

Definition self_data : M (world S) (option ndarray2) :=
  gets (fun w => data (as_dataset (self w))).

Definition assign_data (d : option ndarray2) : M (world S) unit :=
  on_self (modify (fun s => with_dataset (set_data d (as_dataset s)) s)).

Definition assign_col_names (c : option (list string)) : M (world S) unit :=
  on_self (modify (fun s => with_dataset (set_col_names c (as_dataset s)) s)).

(** The body of [for ticker in symbols] *)
Definition add_symbol (data_callback : pyobj) (ticker : string) : M (world S) unit :=
  log (EvFetch ticker) ;;
  fetched <- lift (get_raw_data ticker) ;;
  let (batch, names) := fetched : ndarray2 * list string in
  (if truthy data_callback
   then log (EvCallback batch) ;; on_self (call data_callback batch)
   else ret tt) ;;
  cur <- self_data ;;
  match cur with
  | None =>
      assign_data (Some batch) ;;
      assign_col_names (Some names) ;;
      log (EvAppend batch)
  | Some d =>
      stacked <- lift (np_vstack d batch) ;;
      assign_data (Some stacked) ;;
      log (EvAppend batch)
  end.

(** [Dataset._initialize_dataset] *)
Definition Dataset_initialize_dataset
    (symbols : option (list string)) (sector index : option (list string))
    (size : option nat) (data_callback : pyobj) : M (world S) unit :=
  match symbols with
  | Some tickers => for_in tickers (fun _ ticker => add_symbol data_callback ticker) tt
  | None => ret tt
  end ;;
  match sector with Some _ => ret tt | None => ret tt end ;;
  match index with Some _ => ret tt | None => ret tt end ;;
  match size with Some _ => ret tt | None => ret tt end.

(** *** Name resolution in [Dataset.__init__] *)

Definition of_option {A} (o : option A) : pyobj :=
  match o with Some _ => PyObject | None => PyNone end.

(** The local names of [Dataset.__init__] *)
Definition init_locals (symbols sector index : option (list string))
    (size : option nat) (data_callback : pyobj) : list (string * pyobj) :=
  [("self", PyObject); ("symbols", of_option symbols);
   ("sector", of_option sector); ("index", of_option index);
   ("size", of_option size); ("data_callback", data_callback)].

(** The names bound at the top level of the module: its three imports
    and its two classes *)
Definition module_globals : list (string * pyobj) :=
  [("np", PyObject); ("IntradayQuotes", PyObject);
   ("get_raw_data", PyObject); ("Dataset", PyObject);
   ("MLDataset", PyObject)].

(** The names of Python's built-in namespace *)
Definition builtin_names : list string :=
  ["abs"; "all"; "any"; "apply"; "basestring"; "bin"; "bool"; "buffer";
   "bytearray"; "bytes"; "callable"; "chr"; "classmethod"; "cmp";
   "coerce"; "compile"; "complex"; "copyright"; "credits"; "delattr";
   "dict"; "dir"; "divmod"; "enumerate"; "eval"; "execfile"; "exit";
   "file"; "filter"; "float"; "format"; "frozenset"; "getattr";
   "globals"; "hasattr"; "hash"; "help"; "hex"; "id"; "input"; "int";
   "intern"; "isinstance"; "issubclass"; "iter"; "len"; "license";
   "list"; "locals"; "long"; "map"; "max"; "memoryview"; "min"; "next";
   "object"; "oct"; "open"; "ord"; "pow"; "print"; "property"; "quit";
   "range"; "raw_input"; "reduce"; "reload"; "repr"; "reversed";
   "round"; "set"; "setattr"; "slice"; "sorted"; "staticmethod"; "str";
   "sum"; "super"; "tuple"; "type"; "unichr"; "unicode"; "vars";
   "xrange"; "zip"; "__import__"; "__debug__"; "__doc__"; "__name__";
   "__package__"; "None"; "True"; "False"; "Ellipsis"; "NotImplemented";
   "ArithmeticError"; "AssertionError"; "AttributeError";
   "BaseException"; "BufferError"; "BytesWarning"; "DeprecationWarning";
   "EOFError"; "EnvironmentError"; "Exception"; "FloatingPointError";
   "FutureWarning"; "GeneratorExit"; "IOError"; "ImportError";
   "ImportWarning"; "IndentationError"; "IndexError"; "KeyError";
   "KeyboardInterrupt"; "LookupError"; "MemoryError"; "NameError";
   "NotImplementedError"; "OSError"; "OverflowError";
   "PendingDeprecationWarning"; "ReferenceError"; "RuntimeError";
   "RuntimeWarning"; "StandardError"; "StopIteration"; "SyntaxError";
   "SyntaxWarning"; "SystemError"; "SystemExit"; "TabError";
   "TypeError"; "UnboundLocalError"; "UnicodeDecodeError";
   "UnicodeEncodeError"; "UnicodeError"; "UnicodeTranslateError";
   "UnicodeWarning"; "UserWarning"; "ValueError"; "Warning";
   "ZeroDivisionError"].

Definition builtins : list (string * pyobj) :=
  map (fun name => (name, PyObject)) builtin_names.

Fixpoint lookup (name : string) (env : list (string * pyobj)) : option pyobj :=
  match env with
  | [] => None
  | (n, v) :: env' => if String.eqb n name then Some v else lookup name env'
  end.

(** A name is looked up among the locals, then the module's globals,
    then the built-ins; a name bound nowhere is a [NameError]. *)
Definition load_name (name : string) (locals : list (string * pyobj)) : result pyobj :=
  match lookup name (locals ++ module_globals ++ builtins) with
  | Some v => Ok v
  | None => Err (NameError name)
  end.

(** [Dataset.__init__] *)
Definition Dataset_init
    (symbols sector index : option (list string)) (size : option nat)
    (data_callback : pyobj) : M (world S) unit :=
  let locals := init_locals symbols sector index size data_callback in
  assign_data None ;;
  assign_col_names None ;;
  a1 <- lift (load_name "symbols" locals) ;;
  a2 <- lift (load_name "sector" locals) ;;
  a3 <- lift (load_name "index" locals) ;;
  a4 <- lift (load_name "size" locals) ;;
  a5 <- lift (load_name "stock_callback" locals) ;;
  Dataset_initialize_dataset symbols sector index size a5.

End Construction.

(** [MLDataset.__init__] *)
Definition MLDataset_init
    (get_raw_data : string -> result (ndarray2 * list string))
    (symbols sector index : option (list string)) (size : option nat)
    (target_function : option (ndarray2 -> result ndarray1))
    : M (world MLDataset) unit :=
  on_self (modify (set_target None)) ;;
  let generate_target_data := MLDataset_generate_callback target_function in
  Dataset_init get_raw_data symbols sector index size (PyFunc generate_target_data).

(** * Vocabulary of the statements *)

(** A computation that keeps the quantity [q] of the state, whether it
    returns or raises *)
Definition keeps {W X A} (q : W -> X) (m : M W A) : Prop :=
  forall w, q (snd (m w)) = q w.

(** The indices, counted from [k], of the entries of [flags] that are
    [false]: the rows a sanitize loop marks, [flags] telling which rows
    pass its tests. *)
Fixpoint marked (k : nat) (flags : list bool) : list nat :=
  match flags with
  | [] => []
  | true :: flags' => marked (S k) flags'
  | false :: flags' => k :: marked (S k) flags'
  end.

(** A field passes the scan: it is a float and it is finite. *)
Definition finite_float (v : value) : bool :=
  match v with
  | VFloat f => float_isfinite f
  | _ => false
  end.

(** The feature columns of a row: the columns from index 2 onward *)
Definition features (r : row) : list value := skipn 2 r.

(** The feature columns of a table: all rows, columns from index 2 *)
Definition feature_columns (a : ndarray2) : ndarray2 :=
  Array2 (map features (rows a)) (ncols a - 2).

Definition row_is_clean (r : row) : bool := forallb finite_float (features r).

Definition whole_row_is_clean (r : row) : bool := forallb finite_float r.

(** A target entry passes: not [None], and finite *)
Definition target_passes (v : value) : bool :=
  match v with
  | VFloat f => float_isfinite f
  | VInt z => fits_machine_int z
  | VStr _ | VNone | VRepr _ => false
  end.

(** In the words of the specification, whose numeric type is float: a
    value is non-numeric when it is not a float (the scan's test of a
    number is [isinstance(val, float)], so text, [None] and integers are
    all non-numeric), null when it is [None], non-finite when it is an
    infinity or NaN. *)
Definition non_numeric (v : value) : Prop := forall f, v <> VFloat f.
Definition null (v : value) : Prop := v = VNone.
Definition non_finite (v : value) : Prop :=
  exists f, v = VFloat f /\ float_isfinite f = false.

Definition invalid_field (v : value) : Prop :=
  non_finite v \/ non_numeric v \/ null v.

Definition has_invalid_feature (r : row) : Prop :=
  Exists invalid_field (features r).

(** The rows [Dataset._sanitize] marks for deletion *)
Definition Dataset_delrows (d : ndarray2) : list nat :=
  marked 0 (map row_is_clean (rows d)).

(** A row of an [MLDataset] with its target entry passes: every field
    of the row passes the scan and the target entry passes. *)
Definition ml_passes (rt : row * value) : bool :=
  whole_row_is_clean (fst rt) && target_passes (snd rt).

(** [np.isfinite] is defined on the target entry. *)
Definition target_checkable (v : value) : bool :=
  match v with
  | VFloat _ | VNone => true
  | VInt z => fits_machine_int z
  | VStr _ | VRepr _ => false
  end.

(** The rows [MLDataset._sanitize] marks for deletion *)
Definition MLDataset_delrows (d : ndarray2) (t : ndarray1) : list nat :=
  marked 0 (map ml_passes (combine (rows d) t)).

(** The alignment of table and target: [len(data) == len(target)] *)
Definition aligned (s : MLDataset) : Prop :=
  exists d t, ml_data s = Some d /\ target s = Some t /\
              length (rows d) = length t.

(** Deleting one index after the other, each against the list as the
    previous deletions left it *)
Fixpoint remove_nth {A} (i : nat) (l : list A) : list A :=
  match l, i with
  | [], _ => []
  | _ :: l', 0 => l'
  | x :: l', S i' => x :: remove_nth i' l'
  end.

Definition delete_one_by_one {A} (l : list A) (obj : list nat) : list A :=
  fold_left (fun acc i => remove_nth i acc) obj l.

(** The table and the target after [MLDataset._sanitize] *)
Definition ml_kept (d : ndarray2) (t : ndarray1) : list (row * value) :=
  filter ml_passes (combine (rows d) t).

(** The batch and the column names retrieved for a symbol *)
Definition batch_of (get_raw_data : string -> result (ndarray2 * list string))
    (ticker : string) : ndarray2 :=
  match get_raw_data ticker with
  | Ok (b, _) => b
  | Err _ => Array2 [] 0
  end.

Definition names_of (get_raw_data : string -> result (ndarray2 * list string))
    (ticker : string) : list string :=
  match get_raw_data ticker with
  | Ok (_, names) => names
  | Err _ => []
  end.

(** Retrieval succeeds for the symbol, with [m] columns. *)
Definition retrievable (get_raw_data : string -> result (ndarray2 * list string))
    (m : nat) (ticker : string) : Prop :=
  exists b names, get_raw_data ticker = Ok (b, names) /\ ncols b = m.

(** A batch placed beneath the table accumulated so far, table and
    batch cast to their common dtype *)
Definition beneath (cur : option ndarray2) (b : ndarray2) : ndarray2 :=
  match cur with
  | None => b
  | Some d => Array2 (stacked_rows d b) (ncols d)
  end.

Definition accumulate (cur : option ndarray2) (bs : list ndarray2) : option ndarray2 :=
  fold_left (fun cur b => Some (beneath cur b)) bs cur.

Section ConstructionVocabulary.

Context {S : Type} `{DatasetLike S}.

(** A callback argument that can be used as one: [None], a callable
    that is false in a test (it is never called), or a function that
    returns normally and leaves the attributes [data] and [col_names] of
    the object alone. *)
Definition well_behaved (data_callback : pyobj (S:=S)) : Prop :=
  match data_callback with
  | PyNone | PyFalsyCallable _ => True
  | PyFunc f => forall b s, exists s', f b s = (Ok tt, s') /\
                                       as_dataset s' = as_dataset s
  | PyObject => False
  end.

(** What the constructor does for one symbol *)
Definition symbol_events
    (get_raw_data : string -> result (ndarray2 * list string))
    (data_callback : pyobj (S:=S)) (ticker : string) : list event :=
  [EvFetch ticker]
  ++ (if truthy data_callback then [EvCallback (batch_of get_raw_data ticker)] else [])
  ++ [EvAppend (batch_of get_raw_data ticker)].

(** An object as [__init__] leaves it before the symbols are read *)
Definition fresh (s : S) : Prop := as_dataset s = mkDataset None None.

(** The object once a batch is in its table: beneath the rows already
    there, or as the table itself, then with its column names *)
Definition store_batch (b : ndarray2) (names : list string) (s : S) : S :=
  with_dataset
    (mkDataset (Some (beneath (data (as_dataset s)) b))
               (match data (as_dataset s) with
                | None => Some names
                | Some _ => col_names (as_dataset s)
                end)) s.

(** The object as the callback leaves it when run on a batch: the state
    a function returns; with [None], or a callable that is false in a
    test, the object as it was *)
Definition callback_effect (data_callback : pyobj (S:=S)) (b : ndarray2) (s : S) : S :=
  match data_callback with
  | PyFunc f => snd (f b s)
  | _ => s
  end.

(** The object after one symbol: the callback has run on the symbol's
    batch, then the batch has been stored *)
Definition after_symbol
    (get_raw_data : string -> result (ndarray2 * list string))
    (data_callback : pyobj (S:=S)) (s : S) (ticker : string) : S :=
  store_batch (batch_of get_raw_data ticker) (names_of get_raw_data ticker)
              (callback_effect data_callback (batch_of get_raw_data ticker) s).

End ConstructionVocabulary.

(** The batches the callback was called on, in order *)
Definition callback_arguments (tr : list event) : list ndarray2 :=
  flat_map (fun e => match e with EvCallback b => [b] | _ => [] end) tr.

(** The target function returns one entry per row of the symbol's batch. *)
Definition one_target_per_row
    (get_raw_data : string -> result (ndarray2 * list string))
    (target_function : option (ndarray2 -> result ndarray1))
    (ticker : string) : Prop :=
  forall b names v,
    get_raw_data ticker = Ok (b, names) ->
    call_target_function target_function b = Ok v ->
    length v = length (rows b).

(** The object after [n] successive calls of [MLDataset._sanitize] *)
Definition sanitize_times (n : nat) (s : MLDataset) : MLDataset :=
  Nat.iter n (fun s => snd (MLDataset_sanitize s)) s.

(** A double-precision float holding a small integer *)
Definition fl (z : Z) : value := VFloat (binary_normalize prec64 emax64 z 0 false).

(** Table and target of [s'] are those of [s] with one and the same list
    of indices deleted. *)
Definition same_rows_deleted (s s' : MLDataset) : Prop :=
  exists (d : ndarray2) (t : ndarray1) (delrows : list nat) rs ts,
    ml_data s = Some d /\ target s = Some t /\
    delete_axis0 (rows d) delrows = Ok rs /\
    delete_axis0 t delrows = Ok ts /\
    ml_data s' = Some (Array2 rs (ncols d)) /\ target s' = Some ts.

(** ** Sample data *)

Definition batch_A : ndarray2 :=
  Array2 [[VStr "A"; VStr "2020-01-01"; fl 1; fl 2];
          [VStr "A"; VStr "2020-01-02"; fl 3; VFloat S754_nan]] 4.

Definition batch_B : ndarray2 :=
  Array2 [[VStr "B"; VStr "2020-01-01"; fl 5; fl 6]] 4.

Definition sample_names : list string := ["symbol"; "date"; "open"; "close"].

Definition sample_source (ticker : string) : result (ndarray2 * list string) :=
  if String.eqb ticker "A" then Ok (batch_A, sample_names)
  else if String.eqb ticker "B" then Ok (batch_B, sample_names)
  else Err ValueError.

(** A target function: the constant 10.0 for every row *)
Definition sample_target_function : option (ndarray2 -> result ndarray1) :=
  Some (fun b => Ok (map (fun _ => fl 10) (rows b))).

(** A callback that counts its calls in the user state *)
Definition counting_callback : ndarray2 -> M (Dataset * nat) unit :=
  fun _ => modify (fun s => (fst s, Datatypes.S (snd s))).

(** The same counter held by a callable object that is false in a test *)
Definition falsy_counting_callback : pyobj (S:=Dataset * nat) :=
  PyFalsyCallable counting_callback.

(** A row with text in its two identifier columns and finite features *)
Definition identified_row : row := [VStr "A"; VStr "2020-01-01"; fl 1; fl 2].

Definition identified_dataset : MLDataset :=
  mkMLDataset (mkDataset (Some (Array2 [identified_row] 4)) (Some sample_names))
              (Some [fl 10]).

(** A table of three rows and four columns, floats throughout *)
Definition numeric_table : ndarray2 :=
  Array2 [[fl 1; fl 2; fl 3; fl 4];
          [fl 5; fl 6; fl 7; fl 8];
          [fl 9; fl 10; fl 11; fl 12]] 4.

(** * Further methods of data/dataset.py *)

(** [np.atleast_2d] of the column names, a sequence of text: one row.
    [None] becomes a one-by-one array holding [None]. *)
Definition header_2d (c : option (list string)) : ndarray2 :=
  match c with
  | Some names => Array2 [map VStr names] (length names)
  | None => Array2 [[VNone]] 1
  end.

Definition table_2d (d : option ndarray2) : ndarray2 :=
  match d with
  | Some a => a
  | None => Array2 [[VNone]] 1
  end.

(** [Dataset.pretty_data]: [np.vstack((self.col_names, self.data))], names
    and cells cast to their common dtype *)
Definition Dataset_pretty_data : M Dataset ndarray2 :=
  c <- gets col_names ;;
  d <- gets data ;;
  lift (np_vstack (header_2d c) (table_2d d)).

(** ** Vocabulary of the further statements *)

(** What the target function returns on the batch of a symbol *)
Definition targets_of
    (get_raw_data : string -> result (ndarray2 * list string))
    (target_function : option (ndarray2 -> result ndarray1))
    (ticker : string) : ndarray1 :=
  match call_target_function target_function (batch_of get_raw_data ticker) with
  | Ok v => v
  | Err _ => []
  end.

(** The target function returns normally on the batch of the symbol. *)
Definition target_computable
    (get_raw_data : string -> result (ndarray2 * list string))
    (target_function : option (ndarray2 -> result ndarray1))
    (ticker : string) : Prop :=
  exists v, call_target_function target_function (batch_of get_raw_data ticker) = Ok v.

(** Target entries appended to the target accumulated so far *)
Definition extended (cur : option ndarray1) (v : ndarray1) : ndarray1 :=
  match cur with
  | None => v
  | Some t => np_append_flat t v
  end.

(** A target entry is a float or [None]. *)
Definition float_or_None (v : value) : bool :=
  match v with
  | VFloat _ | VNone => true
  | VInt _ | VStr _ | VRepr _ => false
  end.

(** The sample source, with a symbol between "A" and "B" that cannot be
    retrieved *)
Definition sample_tickers_with_gap : list string := ["A"; "C"; "B"].

(** A batch of three columns, one fewer than the sample batches *)
Definition narrow_batch : ndarray2 :=
  Array2 [[VStr "N"; VStr "2020-01-01"; fl 9]] 3.

Definition mixed_source (ticker : string) : result (ndarray2 * list string) :=
  if String.eqb ticker "N" then Ok (narrow_batch, ["symbol"; "date"; "open"])
  else sample_source ticker.

(** * stocksdb/database.py *)

(** ** Strings, slices and results *)

(** [str.lower] and [str.upper] on the letters of ASCII *)
Definition ascii_lower (c : ascii) : ascii :=
  let n := nat_of_ascii c in
  if (65 <=? n) && (n <=? 90) then ascii_of_nat (n + 32) else c.

Definition ascii_upper (c : ascii) : ascii :=
  let n := nat_of_ascii c in
  if (97 <=? n) && (n <=? 122) then ascii_of_nat (n - 32) else c.

Fixpoint str_lower (s : string) : string :=
  match s with
  | EmptyString => EmptyString
  | String c s' => String (ascii_lower c) (str_lower s')
  end.

Fixpoint str_upper (s : string) : string :=
  match s with
  | EmptyString => EmptyString
  | String c s' => String (ascii_upper c) (str_upper s')
  end.

(** The bound of a slice with a negative step, brought into the list as
    Python does: a negative bound counts from the end, and what is still
    outside is clipped to [-1] below and to the last index above. *)
Definition adjust_index_backward (len i : Z) : Z :=
  if (i <? 0)%Z
  then (if (i + len <? 0)%Z then (-1)%Z else (i + len)%Z)
  else (if (len <=? i)%Z then (len - 1)%Z else i).

(** [l[start:stop:-1]]: the items at [start], [start - 1], ... down to,
    and without, [stop] *)
Definition slice_backward {A} (l : list A) (start stop : Z) : list A :=
  let len := Z.of_nat (length l) in
  let first := adjust_index_backward len start in
  let bound := adjust_index_backward len stop in
  flat_map (fun k => match nth_error l (Z.to_nat (first - Z.of_nat k)) with
                     | Some x => [x]
                     | None => []
                     end)
           (seq 0 (Z.to_nat (first - bound))).

(** [l[i]] on a list, [i >= 0] *)
Definition getitem_list {A} (l : list A) (i : nat) : result A :=
  match nth_error l i with
  | Some x => Ok x
  | None => Err IndexError
  end.

Definition and_then {A B} (r : result A) (k : A -> result B) : result B :=
  match r with
  | Ok a => k a
  | Err e => Err e
  end.

(** A list comprehension [[f(x) for x in l]] whose body can raise *)
Fixpoint comprehension {A B} (f : A -> result B) (l : list A) : result (list B) :=
  match l with
  | [] => Ok []
  | x :: l' => and_then (f x) (fun y =>
               and_then (comprehension f l') (fun ys => Ok (y :: ys)))
  end.

(** The names bound at the top level of the module: its imports and its
    three classes *)
Definition database_globals : list string :=
  ["quotes"; "config"; "date"; "Symbol"; "Quote"; "create_engine";
   "sessionmaker"; "and_"; "or_"; "not_"; "declarative_base";
   "Database"; "StockDBManager"; "IntradayAPI"].

(** ** class StockDBManager *)

Section StockDB.

(** The classes [Symbol] and [Quote] of the module [models] and the class
    [date] are known by their constructors only. *)
Variables symbol quote date : Type.
Variable new_Symbol : string -> string -> option string -> option string -> symbol.
Variable new_Quote :
  string -> string -> string -> string -> string -> string -> string -> quote.
Variable new_date : nat -> nat -> nat -> date.

(** [date.today()] *)
Variable today : date.

(** [d.strftime(format)] *)
Variable strftime : date -> string -> string.

(** [ystockquote.get_historical_prices(symbol, start, end)]: rows of text,
    the first one the header, or an exception *)
Variable get_historical_prices : string -> string -> string -> result (list (list string)).

(** The number of rows of [Symbol] with the given [Ticker], that is
    [session.query(Symbol).filter_by(Ticker=...).count()], or an exception
    of the database *)
Variable count_symbols : string -> result nat.

(** What is done to the sessions and the console, in order *)
Inductive db_event : Type :=
| Opened (session : nat)
| Counted (session : nat) (ticker : string)
| Added (session : nat) (stock : symbol)
| AddedAll (session : nat) (quotes : list quote)
| Committed (session : nat)
| Closed (session : nat)
| Printed (text : string)
| CreatedAll.

(** The sessions handed out so far and the events so far *)
Record db : Type := mkDb {
  next_session : nat;
  db_log : list db_event
}.

Definition db_do (e : db_event) : M db unit :=
  modify (fun w => mkDb (next_session w) (db_log w ++ [e])).

(** [self.db.Session()]: a new session *)
Definition open_session : M db nat :=
  id <- gets next_session ;;
  modify (fun w => mkDb (Datatypes.S id) (db_log w ++ [Opened id])) ;;
  ret id.

(** [StockDBManager.download_quotes] *)
Definition download_quotes (ticker : string) (start_date end_date : date)
    : result (list quote) :=
  let ticker := str_lower ticker in
  let start := strftime start_date "%Y%m%d" in
  let end_ := strftime end_date "%Y%m%d" in
  and_then (get_historical_prices ticker start end_) (fun data =>
  let data := slice_backward data (Z.of_nat (length data) - 1) 0 in
  comprehension (fun val =>
    and_then (getitem_list val 0) (fun v0 =>
    and_then (getitem_list val 1) (fun v1 =>
    and_then (getitem_list val 2) (fun v2 =>
    and_then (getitem_list val 3) (fun v3 =>
    and_then (getitem_list val 4) (fun v4 =>
    and_then (getitem_list val 5) (fun v5 =>
    Ok (new_Quote ticker v0 v1 v2 v3 v4 v5)))))))) data).

(** [session.query(Symbol).filter_by(Ticker=ticker).count()] on the value
    of the variable [session] *)
Definition session_count (session : option nat) (ticker : string) : M db nat :=
  match session with
  | Some id => db_do (Counted id ticker) ;; lift (count_symbols ticker)
  | None => lift (Err AttributeError)
  end.

(** [StockDBManager.check_stock_exists]. The second test of
    [session is None] reads the variable the first test may have
    assigned. *)
Definition check_stock_exists (ticker : string) (session : option nat) : M db bool :=
  session <- match session with
             | None => id <- open_session ;; ret (Some id)
             | Some id => ret (Some id)
             end ;;
  n <- session_count session (str_lower ticker) ;;
  let exists_ := negb (n =? 0) in
  match session with
  | None => lift (Err AttributeError)
  | Some _ => ret tt
  end ;;
  ret exists_.

(** Values a name of the module can hold *)
Inductive dbobj : Type :=
| DbObject
| DbCheck (f : string -> option nat -> M db bool)
| DbDownload (f : string -> date -> date -> result (list quote)).

Definition load_db_name (name : string) (locals : list string) : result dbobj :=
  if existsb (String.eqb name) (locals ++ database_globals ++ builtin_names)
  then Ok DbObject
  else Err (NameError name).

Definition call_check (o : dbobj) (ticker : string) (session : nat) : M db bool :=
  match o with
  | DbCheck f => f ticker (Some session)
  | _ => lift (Err TypeError)
  end.

Definition call_download (o : dbobj) (ticker : string) (d1 d2 : date)
    : M db (list quote) :=
  match o with
  | DbDownload f => lift (f ticker d1 d2)
  | _ => lift (Err TypeError)
  end.

(** [StockDBManager.add_stock] *)
Definition add_stock (ticker name : string) (sector industry : option string)
    : M db unit :=
  let locals := ["self"; "ticker"; "name"; "sector"; "industry"; "stock"; "session"] in
  let ticker := str_lower ticker in
  let stock := new_Symbol ticker name sector industry in
  session <- open_session ;;
  check <- lift (load_db_name "check_stock_exists" locals) ;;
  found <- call_check check ticker session ;;
  (if found : bool
   then db_do (Printed ("Stock " ++ str_upper ticker ++ " already exists!"))
   else
     db_do (Printed ("Adding " ++ str_upper ticker ++ " to database")) ;;
     db_do (Added session stock) ;;
     download <- lift (load_db_name "download_quotes" locals) ;;
     qs <- call_download download ticker (new_date 1900 1 1) today ;;
     db_do (AddedAll session qs)) ;;
  db_do (Committed session) ;;
  db_do (Closed session).

(** [StockDBManager.create_database]:
    [self.db.Base.metadata.create_all(Engine)] *)
Definition create_database : M db unit :=
  engine <- lift (load_db_name "Engine" ["self"]) ;;
  db_do CreatedAll.

(** The quote made of the first six fields of a row *)
Definition row_quote (ticker : string) (val : list string) : quote :=
  new_Quote ticker (nth 0 val "") (nth 1 val "") (nth 2 val "")
            (nth 3 val "") (nth 4 val "") (nth 5 val "").

End StockDB.

(** ** Sample data of the provider *)

(** A quote as the list of the arguments of its constructor *)
Definition sample_new_Quote (ticker v0 v1 v2 v3 v4 v5 : string) : list string :=
  [ticker; v0; v1; v2; v3; v4; v5].

(** Three rows as the provider sends them: header first, newest day
    before oldest *)
Definition sample_prices : list (list string) :=
  [["Date"; "Open"; "High"; "Low"; "Close"; "Volume"; "Adj Clos"];
   ["2012-01-04"; "11"; "12"; "10"; "11.5"; "900"; "11.5"];
   ["2012-01-03"; "10"; "11"; "9"; "10.5"; "800"; "10.5"]].

Definition sample_provider (ticker start end_ : string) : result (list (list string)) :=
  Ok sample_prices.

(** A response one of whose rows is cut short *)
Definition short_provider (ticker start end_ : string) : result (list (list string)) :=
  Ok [["Date"; "Open"; "High"; "Low"; "Close"; "Volume"; "Adj Clos"];
      ["2012-01-04"; "11"; "12"];
      ["2012-01-03"; "10"; "11"; "9"; "10.5"; "800"; "10.5"]].

Definition sample_strftime (d : nat * nat * nat) (format : string) : string :=
  "20120101".

(** * Properties *)

Unset Implicit Arguments.

(** ** Running computations *)

Section MonadFacts.

Context {W : Type}.

Lemma bind_ok {A B} (m : M W A) (k : A -> M W B) w a w' :
  m w = (Ok a, w') -> bind m k w = k a w'.
Proof. unfold bind; intros ->; reflexivity. Qed.

Lemma bind_err {A B} (m : M W A) (k : A -> M W B) w e w' :
  m w = (Err e, w') -> bind m k w = (Err e, w').
Proof. unfold bind; intros ->; reflexivity. Qed.

Lemma keeps_ret {X A} (q : W -> X) (a : A) : keeps q (ret a).
Proof. intro w; reflexivity. Qed.

Lemma keeps_lift {X A} (q : W -> X) (r : result A) : keeps q (lift r).
Proof. intro w; reflexivity. Qed.

Lemma keeps_gets {X A} (q : W -> X) (f : W -> A) : keeps q (gets f).
Proof. intro w; reflexivity. Qed.

Lemma keeps_modify {X} (q : W -> X) (f : W -> W) :
  (forall w, q (f w) = q w) -> keeps q (modify f).
Proof. intros Hf w; simpl; apply Hf. Qed.

Lemma keeps_bind {X A B} (q : W -> X) (m : M W A) (k : A -> M W B) :
  keeps q m -> (forall a, keeps q (k a)) -> keeps q (bind m k).
Proof.
  intros Hm Hk w. unfold bind.
  specialize (Hm w). destruct (m w) as [[a|e] w1]; simpl in *.
  - rewrite Hk. exact Hm.
  - exact Hm.
Qed.

Lemma keeps_for_in {X A B} (q : W -> X) (l : list B) (body : A -> B -> M W A) :
  (forall a x, keeps q (body a x)) -> forall acc, keeps q (for_in l body acc).
Proof.
  intros Hb. induction l as [|x l IH]; intro acc; simpl.
  - apply keeps_ret.
  - apply keeps_bind; [apply Hb | intro a; apply IH].
Qed.

Lemma keeps_if {X A} (q : W -> X) (b : bool) (m1 m2 : M W A) :
  keeps q m1 -> keeps q m2 -> keeps q (if b then m1 else m2).
Proof. destruct b; auto. Qed.

End MonadFacts.

Create HintDb keeps.
#[export] Hint Resolve keeps_ret keeps_lift keeps_gets keeps_bind
  keeps_for_in keeps_if : keeps.

(** ** Deleting by index and filtering *)

Lemma marked_range k flags i :
  In i (marked k flags) -> k <= i < k + length flags.
Proof.
  revert k. induction flags as [|b flags IH]; intros k Hi; simpl in *.
  - contradiction.
  - destruct b; simpl in Hi.
    + apply IH in Hi. lia.
    + destruct Hi as [<-|Hi]; [lia | apply IH in Hi; lia].
Qed.

Lemma marked_spec k flags i :
  In i (marked k flags) <->
  exists j, i = k + j /\ nth_error flags j = Some false.
Proof.
  revert k. induction flags as [|b flags IH]; intros k; simpl.
  - split; [contradiction | intros [[|j] [_ Hj]]; discriminate].
  - assert (Htail : In i (marked (S k) flags) <->
                    exists j, i = k + S j /\ nth_error flags j = Some false).
    { rewrite IH. split; intros [j [-> Hj]]; exists j; split; auto; lia. }
    destruct b; simpl.
    + rewrite Htail. split.
      * intros [j [-> Hj]]. exists (S j); auto.
      * intros [[|j] [-> Hj]]; [discriminate | exists j; auto].
    + rewrite Htail. split.
      * intros [<-|[j [-> Hj]]]; [exists 0; split; [lia | reflexivity] | exists (S j); auto].
      * intros [[|j] [-> Hj]]; [left; lia | right; exists j; auto].
Qed.

Lemma marked_app k f1 f2 :
  marked k (f1 ++ f2) = marked k f1 ++ marked (k + length f1) f2.
Proof.
  revert k. induction f1 as [|b f1 IH]; intro k; simpl.
  - f_equal; lia.
  - rewrite IH. replace (S k + length f1) with (k + S (length f1)) by lia.
    destruct b; reflexivity.
Qed.

Lemma existsb_eqb_false i l :
  (forall j, In j l -> j <> i) -> existsb (Nat.eqb i) l = false.
Proof.
  induction l as [|x l IH]; intro Hl; simpl; [reflexivity|].
  rewrite IH by (intros; apply Hl; right; assumption).
  destruct (Nat.eqb_spec i x) as [->|]; [|reflexivity].
  exfalso; apply (Hl x); [left|]; reflexivity.
Qed.

Lemma existsb_eqb_true i l : In i l -> existsb (Nat.eqb i) l = true.
Proof.
  intro Hi. apply existsb_exists. exists i. split; [assumption | apply Nat.eqb_refl].
Qed.

(** The mask [np.delete] computes from the marked indices is [flags]. *)
Lemma mask_of_marked flags : forall k obj,
  (forall i, In i obj -> i < k) ->
  map (fun i => negb (existsb (Nat.eqb i) (obj ++ marked k flags)))
      (seq k (length flags)) = flags.
Proof.
  induction flags as [|b flags IH]; intros k obj Hobj; simpl; [reflexivity|].
  destruct b; simpl.
  - rewrite existsb_eqb_false.
    + simpl. f_equal. apply IH. intros i Hi. apply Hobj in Hi. lia.
    + intros j Hj. apply in_app_or in Hj. destruct Hj as [Hj|Hj].
      * apply Hobj in Hj. lia.
      * apply marked_range in Hj. lia.
  - rewrite existsb_eqb_true by (apply in_or_app; right; left; reflexivity).
    simpl. f_equal.
    replace (obj ++ k :: marked (S k) flags)
      with ((obj ++ [k]) ++ marked (S k) flags)
      by (rewrite <- app_assoc; reflexivity).
    apply IH. intros i Hi. apply in_app_or in Hi.
    destruct Hi as [Hi|[<-|[]]]; [apply Hobj in Hi|]; lia.
Qed.

Lemma keep_mask_marked flags :
  keep_mask (length flags) (marked 0 flags) = flags.
Proof.
  unfold keep_mask. apply (mask_of_marked flags 0 []).
  intros i [].
Qed.

Lemma marked_in_range flags :
  forallb (fun i => i <? length flags) (marked 0 flags) = true.
Proof.
  apply forallb_forall. intros i Hi. apply marked_range in Hi.
  apply Nat.ltb_lt. lia.
Qed.

Lemma take_mask_filter {A} (p : A -> bool) (l : list A) :
  take_mask l (map p l) = filter p l.
Proof.
  induction l as [|x l IH]; simpl; [reflexivity|].
  rewrite IH. reflexivity.
Qed.

Lemma delete_marked_flags {A} (l : list A) (flags : list bool) :
  length flags = length l ->
  delete_axis0 l (marked 0 flags) = Ok (take_mask l flags).
Proof.
  intro Hlen. unfold delete_axis0. rewrite <- Hlen.
  rewrite marked_in_range, keep_mask_marked. reflexivity.
Qed.

(** Deleting the marked indices, in one call, keeps exactly the entries
    that pass, in their order. *)
Lemma delete_marked {A} (p : A -> bool) (l : list A) :
  delete_axis0 l (marked 0 (map p l)) = Ok (filter p l).
Proof.
  rewrite delete_marked_flags by apply length_map.
  rewrite take_mask_filter. reflexivity.
Qed.

Lemma take_mask_combine_fst {A B} (p : A * B -> bool) : forall (l : list A) (l2 : list B),
  length l = length l2 ->
  take_mask l (map p (combine l l2)) = map fst (filter p (combine l l2)).
Proof.
  induction l as [|x l IH]; intros [|y l2] Hlen; simpl in *; try discriminate;
    try reflexivity.
  rewrite IH by lia. destruct (p (x, y)); reflexivity.
Qed.

Lemma take_mask_combine_snd {A B} (p : A * B -> bool) : forall (l : list A) (l2 : list B),
  length l = length l2 ->
  take_mask l2 (map p (combine l l2)) = map snd (filter p (combine l l2)).
Proof.
  induction l as [|x l IH]; intros [|y l2] Hlen; simpl in *; try discriminate;
    try reflexivity.
  rewrite IH by lia. destruct (p (x, y)); reflexivity.
Qed.

Lemma combine_fst_snd {A B} (l : list (A * B)) :
  combine (map fst l) (map snd l) = l.
Proof.
  induction l as [|[x y] l IH]; simpl; [reflexivity | rewrite IH; reflexivity].
Qed.

Lemma filter_idempotent {A} (p : A -> bool) (l : list A) :
  filter p (filter p l) = filter p l.
Proof.
  induction l as [|x l IH]; simpl; [reflexivity|].
  destruct (p x) eqn:Hp; simpl; [rewrite Hp, IH; reflexivity | exact IH].
Qed.

(** ** The scan of a row *)

Lemma field_is_bad_eq v : field_is_bad v = Ok (negb (finite_float v)).
Proof. destruct v; reflexivity. Qed.

Lemma scan_fields_eq {W} (r : list value) : forall (b : bool) (w : W),
  scan_fields r b w = (Ok (b || negb (forallb finite_float r)), w).
Proof.
  unfold scan_fields.
  induction r as [|v r IH]; intros b w; simpl.
  - unfold ret. rewrite orb_false_r. reflexivity.
  - unfold bind at 1. unfold bind at 1. unfold lift at 1.
    rewrite field_is_bad_eq. unfold ret at 1.
    rewrite IH. f_equal. f_equal.
    destruct (finite_float v), b; simpl; reflexivity.
Qed.

Lemma invalid_field_iff v : invalid_field v <-> finite_float v = false.
Proof.
  unfold invalid_field, non_finite, non_numeric, null. split.
  - intros [[f [-> Hf]]|[Hn| ->]]; simpl; auto.
    destruct v; try reflexivity. exfalso; apply (Hn f); reflexivity.
  - destruct v as [f| | | |]; simpl; intro Hv.
    + left. exists f. auto.
    + right; left. intros f Hf; discriminate.
    + right; left. intros f Hf; discriminate.
    + right; right. reflexivity.
    + right; left. intros f' Hf; discriminate.
Qed.

Lemma has_invalid_feature_iff r : has_invalid_feature r <-> row_is_clean r = false.
Proof.
  unfold has_invalid_feature, row_is_clean.
  induction (features r) as [|v l IH]; simpl.
  - split; [intro Hx; inversion Hx | discriminate].
  - rewrite Exists_cons, invalid_field_iff, IH.
    destruct (finite_float v); simpl; split; auto.
    intros [Hx|Hx]; [discriminate | assumption].
Qed.

(** ** [Dataset._sanitize] *)

Lemma nth_error_middle {A} (pre : list A) x rest :
  nth_error (pre ++ x :: rest) (length pre) = Some x.
Proof. induction pre; simpl; auto. Qed.

Lemma Dataset_sanitize_row_run d c pre r rest acc :
  rows d = pre ++ r :: rest ->
  Dataset_sanitize_row acc (length pre) (mkDataset (Some d) c) =
  (Ok (acc ++ marked (length pre) [row_is_clean r]), mkDataset (Some d) c).
Proof.
  intro Hd. unfold Dataset_sanitize_row.
  unfold bind at 1. unfold bind at 1. unfold gets, lift, getitem2.
  cbn [data]. rewrite Hd, nth_error_middle.
  unfold bind. rewrite scan_fields_eq. unfold ret, row_is_clean, features.
  destruct (forallb finite_float (skipn 2 r)); simpl;
    rewrite ?app_nil_r; reflexivity.
Qed.

Lemma Dataset_loop_run d c : forall rest pre acc,
  rows d = pre ++ rest ->
  for_in (seq (length pre) (length rest)) Dataset_sanitize_row acc
         (mkDataset (Some d) c) =
  (Ok (acc ++ marked (length pre) (map row_is_clean rest)),
   mkDataset (Some d) c).
Proof.
  induction rest as [|r rest IH]; intros pre acc Hd; simpl.
  - unfold ret. rewrite app_nil_r. reflexivity.
  - rewrite (bind_ok _ _ _ _ _ (Dataset_sanitize_row_run d c pre r rest acc Hd)).
    assert (Hd' : rows d = (pre ++ [r]) ++ rest)
      by (rewrite <- app_assoc; exact Hd).
    specialize (IH (pre ++ [r]) (acc ++ marked (length pre) [row_is_clean r]) Hd').
    rewrite length_app in IH. cbn [length] in IH.
    rewrite Nat.add_1_r in IH. rewrite IH. rewrite <- app_assoc. f_equal. f_equal.
    destruct (row_is_clean r); reflexivity.
Qed.

Lemma Dataset_sanitize_run d c :
  Dataset_sanitize (mkDataset (Some d) c) =
  (Ok tt, mkDataset (Some (Array2 (filter row_is_clean (rows d)) (ncols d))) c).
Proof.
  unfold Dataset_sanitize.
  unfold bind at 1. unfold bind at 1. unfold gets at 1. unfold lift at 1. simpl.
  pose proof (Dataset_loop_run d c (rows d) [] [] eq_refl) as Hloop.
  simpl in Hloop. rewrite (bind_ok _ _ _ _ _ Hloop).
  unfold bind, gets, lift, modify, np_delete2. simpl.
  rewrite delete_marked. reflexivity.
Qed.

(** ** [MLDataset._sanitize] *)

Lemma target_is_bad_run d c tpre v trest :
  target_is_bad (length tpre)
    (mkMLDataset (mkDataset d c) (Some (tpre ++ v :: trest))) =
  ((if target_checkable v then Ok (negb (target_passes v)) else Err TypeError),
   mkMLDataset (mkDataset d c) (Some (tpre ++ v :: trest))).
Proof.
  unfold target_is_bad, bind, gets, lift, getitem1. cbn [target].
  rewrite nth_error_middle.
  destruct v as [f|z|str| |f]; simpl; rewrite ?nth_error_middle;
    unfold np_isfinite; try destruct (fits_machine_int z); reflexivity.
Qed.

Lemma MLDataset_sanitize_row_run d c pre r rest tpre v trest acc :
  rows d = pre ++ r :: rest ->
  length tpre = length pre ->
  MLDataset_sanitize_row acc (length pre)
    (mkMLDataset (mkDataset (Some d) c) (Some (tpre ++ v :: trest))) =
  ((if target_checkable v
    then Ok (acc ++ marked (length pre) [ml_passes (r, v)])
    else Err TypeError),
   mkMLDataset (mkDataset (Some d) c) (Some (tpre ++ v :: trest))).
Proof.
  intros Hd Hlen. unfold MLDataset_sanitize_row.
  unfold bind at 1. unfold bind at 1. unfold gets, lift, getitem2, ml_data.
  cbn [data ml_dataset]. rewrite Hd, nth_error_middle.
  unfold bind at 1. rewrite scan_fields_eq.
  unfold bind. rewrite <- Hlen, target_is_bad_run.
  destruct (target_checkable v); [|reflexivity].
  unfold ret, ml_passes, whole_row_is_clean. cbn [fst snd orb].
  destruct (forallb finite_float r), (target_passes v); simpl;
    rewrite ?app_nil_r; reflexivity.
Qed.

Lemma MLDataset_loop_run d c t : forall rest trest pre tpre acc,
  rows d = pre ++ rest ->
  t = tpre ++ trest ->
  length tpre = length pre ->
  length trest = length rest ->
  for_in (seq (length pre) (length rest)) MLDataset_sanitize_row acc
         (mkMLDataset (mkDataset (Some d) c) (Some t)) =
  ((if forallb target_checkable trest
    then Ok (acc ++ marked (length pre) (map ml_passes (combine rest trest)))
    else Err TypeError),
   mkMLDataset (mkDataset (Some d) c) (Some t)).
Proof.
  induction rest as [|r rest IH]; intros [|v trest] pre tpre acc Hd Ht Hl1 Hl2;
    try discriminate.
  - simpl. unfold ret. rewrite app_nil_r. reflexivity.
  - subst t. cbn [length seq for_in].
    pose proof (MLDataset_sanitize_row_run d c pre r rest tpre v trest acc Hd Hl1)
      as Hrow.
    cbn [forallb]. destruct (target_checkable v).
    + rewrite (bind_ok _ _ _ _ _ Hrow).
      assert (Hd' : rows d = (pre ++ [r]) ++ rest)
        by (rewrite <- app_assoc; exact Hd).
      assert (Ht' : tpre ++ v :: trest = (tpre ++ [v]) ++ trest)
        by (rewrite <- app_assoc; reflexivity).
      assert (Hl1' : length (tpre ++ [v]) = length (pre ++ [r]))
        by (rewrite !length_app; simpl; lia).
      assert (Hl2' : length trest = length rest) by (simpl in Hl2; lia).
      specialize (IH trest (pre ++ [r]) (tpre ++ [v])
                     (acc ++ marked (length pre) [ml_passes (r, v)])
                     Hd' Ht' Hl1' Hl2').
      rewrite length_app in IH. cbn [length] in IH.
      rewrite Nat.add_1_r in IH. rewrite IH. cbn [andb].
      destruct (forallb target_checkable trest); [|reflexivity].
      rewrite <- app_assoc. cbn [combine map].
      destruct (ml_passes (r, v)); reflexivity.
    + rewrite (bind_err _ _ _ _ _ Hrow). reflexivity.
Qed.

Lemma MLDataset_sanitize_run d c (t : ndarray1) :
  length (rows d) = length t ->
  MLDataset_sanitize (mkMLDataset (mkDataset (Some d) c) (Some t)) =
  if forallb target_checkable t
  then (Ok tt,
        mkMLDataset
          (mkDataset (Some (Array2 (map fst (ml_kept d t)) (ncols d))) c)
          (Some (map snd (ml_kept d t))))
  else (Err TypeError, mkMLDataset (mkDataset (Some d) c) (Some t)).
Proof.
  intro Hlen. unfold MLDataset_sanitize.
  unfold bind at 1. unfold bind at 1. unfold gets at 1. unfold lift at 1.
  cbn [ml_data ml_dataset data py_len2].
  pose proof (MLDataset_loop_run d c t (rows d) t [] [] [] eq_refl eq_refl
                eq_refl (eq_sym Hlen)) as Hloop.
  cbn [length app] in Hloop.
  destruct (forallb target_checkable t).
  - rewrite (bind_ok _ _ _ _ _ Hloop).
    unfold bind, gets, lift, modify, np_delete2, np_delete1, ml_data.
    cbn [ml_dataset data target ml_set_data set_target set_data col_names].
    rewrite !delete_marked_flags
      by (rewrite length_map, length_combine; lia).
    rewrite take_mask_combine_fst, take_mask_combine_snd by assumption.
    reflexivity.
  - rewrite (bind_err _ _ _ _ _ Hloop). reflexivity.
Qed.

(** ** [Dataset._initialize_dataset] *)

Section ConstructionFacts.

Context {S : Type} `{DatasetLike S}.

Variable get_raw_data : string -> result (ndarray2 * list string).

Lemma batch_of_fetched ticker b names :
  get_raw_data ticker = Ok (b, names) -> batch_of get_raw_data ticker = b.
Proof. unfold batch_of; intros ->; reflexivity. Qed.

(** The assignments at the end of the loop body *)
Lemma store_batch_run (s : S) tr b names :
  (forall d, data (as_dataset s) = Some d -> ncols d = ncols b) ->
  exists s',
    (cur <- self_data ;;
     match cur with
     | None =>
         assign_data (Some b) ;;
         assign_col_names (Some names) ;;
         log (EvAppend b)
     | Some d =>
         stacked <- lift (np_vstack d b) ;;
         assign_data (Some stacked) ;;
         log (EvAppend b)
     end) (mkWorld s tr) = (Ok tt, mkWorld s' (tr ++ [EvAppend b])) /\
    data (as_dataset s') = Some (beneath (data (as_dataset s)) b) /\
    col_names (as_dataset s') =
      match data (as_dataset s) with
      | None => Some names
      | Some _ => col_names (as_dataset s)
      end.
Proof.
  intro Hcols.
  unfold bind at 1. unfold self_data, gets. cbn [self].
  destruct (data (as_dataset s)) as [d|] eqn:Hd.
  - unfold bind, lift, np_vstack, assign_data, on_self, modify, log.
    cbn [self trace]. rewrite (Hcols d eq_refl), Nat.eqb_refl.
    eexists. split; [reflexivity|]. cbn [self].
    rewrite as_with. unfold set_data, beneath. cbn [data col_names].
    rewrite (Hcols d eq_refl). auto.
  - unfold bind, assign_data, assign_col_names, on_self, modify, log.
    cbn [self trace].
    eexists. split; [reflexivity|]. cbn [self].
    rewrite !as_with. unfold set_data, set_col_names, beneath.
    cbn [data col_names]. auto.
Qed.

Lemma add_symbol_run cb ticker (w : world S) b names :
  get_raw_data ticker = Ok (b, names) ->
  well_behaved cb ->
  (forall d, data (as_dataset (self w)) = Some d -> ncols d = ncols b) ->
  exists w',
    add_symbol get_raw_data cb ticker w = (Ok tt, w') /\
    trace w' = trace w ++ symbol_events get_raw_data cb ticker /\
    data (as_dataset (self w')) = Some (beneath (data (as_dataset (self w))) b) /\
    col_names (as_dataset (self w')) =
      match data (as_dataset (self w)) with
      | None => Some names
      | Some _ => col_names (as_dataset (self w))
      end.
Proof.
  intros Hfetch Hwb Hcols. destruct w as [s tr]. cbn [self trace] in *.
  unfold add_symbol, symbol_events.
  rewrite (batch_of_fetched _ _ _ Hfetch).
  unfold bind at 1. unfold log at 1, modify at 1. cbn [self trace].
  unfold bind at 1. unfold lift at 1. rewrite Hfetch.
  destruct cb as [|f| |f]; cbn [truthy]; [| |contradiction|].
  - unfold bind at 1. unfold ret at 1.
    destruct (store_batch_run s (tr ++ [EvFetch ticker]) b names Hcols)
      as [s' [Hrun [Hdata Hnames]]].
    rewrite Hrun. exists (mkWorld s' ((tr ++ [EvFetch ticker]) ++ [EvAppend b])).
    cbn [self trace]. rewrite <- !app_assoc. auto.
  - destruct (Hwb b s) as [s1 [Hf Hkeep]].
    unfold bind at 1. unfold bind at 1. unfold log at 1, modify at 1.
    cbn [self trace]. unfold on_self at 1, call. cbn [self trace].
    rewrite Hf.
    assert (Hcols1 : forall d, data (as_dataset s1) = Some d -> ncols d = ncols b)
      by (rewrite Hkeep; exact Hcols).
    destruct (store_batch_run s1 ((tr ++ [EvFetch ticker]) ++ [EvCallback b])
                b names Hcols1) as [s' [Hrun [Hdata Hnames]]].
    rewrite Hrun.
    exists (mkWorld s' (((tr ++ [EvFetch ticker]) ++ [EvCallback b]) ++ [EvAppend b])).
    cbn [self trace]. rewrite Hkeep in Hdata, Hnames.
    rewrite <- !app_assoc. auto.
  - unfold bind at 1. unfold ret at 1.
    destruct (store_batch_run s (tr ++ [EvFetch ticker]) b names Hcols)
      as [s' [Hrun [Hdata Hnames]]].
    rewrite Hrun. exists (mkWorld s' ((tr ++ [EvFetch ticker]) ++ [EvAppend b])).
    cbn [self trace]. rewrite <- !app_assoc. auto.
Qed.

Lemma symbols_loop_run cb m : forall tickers (w : world S),
  well_behaved cb ->
  Forall (retrievable get_raw_data m) tickers ->
  (forall d, data (as_dataset (self w)) = Some d -> ncols d = m) ->
  exists w',
    for_in tickers (fun _ ticker => add_symbol get_raw_data cb ticker) tt w =
      (Ok tt, w') /\
    trace w' = trace w ++ flat_map (symbol_events get_raw_data cb) tickers /\
    data (as_dataset (self w')) =
      accumulate (data (as_dataset (self w))) (map (batch_of get_raw_data) tickers) /\
    col_names (as_dataset (self w')) =
      match data (as_dataset (self w)), tickers with
      | None, ticker :: _ => Some (names_of get_raw_data ticker)
      | _, _ => col_names (as_dataset (self w))
      end.
Proof.
  induction tickers as [|ticker tickers IH]; intros w Hwb Hall Hcols.
  - exists w. cbn [for_in flat_map map accumulate fold_left]. unfold ret.
    rewrite app_nil_r. repeat split; auto. destruct (data (as_dataset (self w))); auto.
  - inversion Hall as [|? ? [b [names [Hfetch Hm]]] Hrest]; subst.
    assert (Hcols0 : forall d, data (as_dataset (self w)) = Some d ->
                               ncols d = ncols b)
      by (intros d Hd; apply Hcols; exact Hd).
    destruct (add_symbol_run cb ticker w b names Hfetch Hwb Hcols0)
      as [w1 [Hrun1 [Htr1 [Hdata1 Hnames1]]]].
    assert (Hcols1 : forall d, data (as_dataset (self w1)) = Some d ->
                               ncols d = ncols b).
    { intros d Hd. rewrite Hdata1 in Hd. injection Hd as <-.
      unfold beneath. destruct (data (as_dataset (self w))) as [d0|] eqn:Hd0;
        cbn [ncols]; auto. }
    destruct (IH w1 Hwb Hrest Hcols1) as [w' [Hrun [Htr [Hdata Hnames]]]].
    exists w'. cbn [for_in].
    rewrite (bind_ok _ _ _ _ _ Hrun1). split; [exact Hrun|].
    split; [|split].
    + rewrite Htr, Htr1. cbn [flat_map]. rewrite app_assoc. reflexivity.
    + rewrite Hdata, Hdata1. cbn [map accumulate fold_left].
      rewrite (batch_of_fetched _ _ _ Hfetch). reflexivity.
    + rewrite Hnames, Hdata1, Hnames1.
      unfold names_of. rewrite Hfetch.
      destruct (data (as_dataset (self w))); reflexivity.
Qed.

Lemma Dataset_initialize_dataset_run cb m tickers sector index size (w : world S) :
  well_behaved cb ->
  Forall (retrievable get_raw_data m) tickers ->
  (forall d, data (as_dataset (self w)) = Some d -> ncols d = m) ->
  exists w',
    Dataset_initialize_dataset get_raw_data (Some tickers) sector index size cb w =
      (Ok tt, w') /\
    trace w' = trace w ++ flat_map (symbol_events get_raw_data cb) tickers /\
    data (as_dataset (self w')) =
      accumulate (data (as_dataset (self w))) (map (batch_of get_raw_data) tickers) /\
    col_names (as_dataset (self w')) =
      match data (as_dataset (self w)), tickers with
      | None, ticker :: _ => Some (names_of get_raw_data ticker)
      | _, _ => col_names (as_dataset (self w))
      end.
Proof.
  intros Hwb Hall Hcols.
  destruct (symbols_loop_run cb m tickers w Hwb Hall Hcols)
    as [w' [Hrun Hrest]].
  exists w'. split; [|exact Hrest].
  unfold Dataset_initialize_dataset.
  rewrite (bind_ok _ _ _ _ _ Hrun).
  destruct sector, index, size; reflexivity.
Qed.

End ConstructionFacts.

(** ** Construction of an [MLDataset]: table and target grow together *)

Section MLConstructionFacts.

Variable get_raw_data : string -> result (ndarray2 * list string).
Variable target_function : option (ndarray2 -> result ndarray1).

Let one_target_per_row := one_target_per_row get_raw_data target_function.

Let generate_target_data := PyFunc (MLDataset_generate_callback target_function).

Lemma ml_add_symbol_aligned ticker (w w' : world MLDataset) :
  one_target_per_row ticker ->
  (ml_data (self w) = None /\ target (self w) = None) \/ aligned (self w) ->
  add_symbol get_raw_data generate_target_data ticker w = (Ok tt, w') ->
  aligned (self w').
Proof.
  intros Hlen Hinv. destruct w as [[[d c] tg] tr].
  unfold add_symbol, generate_target_data, MLDataset_generate_callback.
  unfold bind, log, modify, lift, on_self, call, gets, self_data, assign_data,
    assign_col_names, ret.
  cbn [self trace truthy target ml_dataset].
  destruct (get_raw_data ticker) as [[b names]|e] eqn:Hfetch; [|discriminate].
  specialize (Hlen b names).
  destruct (call_target_function target_function b) as [v|e] eqn:Hcall.
  2:{ destruct tg; discriminate. }
  specialize (Hlen v Hfetch eq_refl).
  unfold aligned, ml_data in *. cbn [self ml_dataset data target] in Hinv.
  destruct Hinv as [[-> ->]|[d0 [t0 [-> [-> Hal]]]]].
  - cbn. intro Hrun. injection Hrun as <-.
    exists b, v. cbn. auto.
  - cbn -[stacked_rows np_append_flat]. unfold np_vstack.
    destruct (ncols d0 =? ncols b); [|discriminate].
    cbn -[stacked_rows np_append_flat]. intro Hrun. injection Hrun as <-.
    exists (Array2 (stacked_rows d0 b) (ncols d0)), (np_append_flat t0 v).
    cbn -[stacked_rows np_append_flat].
    split; [reflexivity|]. split; [reflexivity|].
    unfold stacked_rows, cast_rows, np_append_flat.
    rewrite !length_app, !length_map. unfold row, ndarray1 in *. lia.
Qed.

Lemma ml_symbols_loop_aligned : forall tickers (w w' : world MLDataset),
  Forall one_target_per_row tickers ->
  aligned (self w) ->
  for_in tickers (fun _ ticker => add_symbol get_raw_data generate_target_data ticker)
         tt w = (Ok tt, w') ->
  aligned (self w').
Proof.
  induction tickers as [|ticker tickers IH]; intros w w' Hall Hal Hrun.
  - cbn in Hrun. injection Hrun as <-. exact Hal.
  - inversion Hall as [|? ? Hone Hrest]; subst.
    cbn [for_in] in Hrun. unfold bind in Hrun.
    destruct (add_symbol get_raw_data generate_target_data ticker w)
      as [[[]|e] w1] eqn:Hstep; [|discriminate].
    apply (IH w1 w' Hrest); [|exact Hrun].
    apply (ml_add_symbol_aligned ticker w w1 Hone); [right; exact Hal | exact Hstep].
Qed.

Lemma ml_initialize_dataset_aligned tickers sector index size (w w' : world MLDataset) :
  tickers <> [] ->
  Forall one_target_per_row tickers ->
  ml_data (self w) = None -> target (self w) = None ->
  Dataset_initialize_dataset get_raw_data (Some tickers) sector index size
    generate_target_data w = (Ok tt, w') ->
  aligned (self w').
Proof.
  intros Hne Hall Hd Ht Hrun.
  unfold Dataset_initialize_dataset in Hrun. unfold bind at 1 in Hrun.
  destruct tickers as [|ticker tickers]; [contradiction|].
  destruct (for_in (ticker :: tickers)
              (fun _ ticker => add_symbol get_raw_data generate_target_data ticker)
              tt w) as [[[]|e] w1] eqn:Hloop; [|discriminate].
  assert (w' = w1) as ->.
  { unfold bind, ret in Hrun. destruct sector, index, size; cbn in Hrun; congruence. }
  inversion Hall as [|? ? Hone Hrest]; subst.
  cbn [for_in] in Hloop. unfold bind in Hloop.
  destruct (add_symbol get_raw_data generate_target_data ticker w)
    as [[[]|e] w2] eqn:Hstep; [|discriminate].
  apply (ml_symbols_loop_aligned tickers w2 w1 Hrest); [|exact Hloop].
  apply (ml_add_symbol_aligned ticker w w2 Hone); [left; auto | exact Hstep].
Qed.

End MLConstructionFacts.

(** ** Alignment through [MLDataset._sanitize] *)

Lemma MLDataset_sanitize_aligned s :
  aligned s -> aligned (snd (MLDataset_sanitize s)).
Proof.
  intros [d [t [Hd [Ht Hlen]]]].
  destruct s as [[d0 c] t0]. unfold ml_data in Hd. cbn in Hd, Ht. subst d0 t0.
  rewrite (MLDataset_sanitize_run d c t Hlen).
  destruct (forallb target_checkable t); cbn [snd].
  - eexists. eexists. unfold ml_data. cbn. split; [reflexivity|].
    split; [reflexivity|]. cbn. rewrite !length_map. reflexivity.
  - exists d, t. unfold ml_data. cbn. auto.
Qed.

(** ** The constructors *)

Lemma load_stock_callback {S : Type} (locals_symbols locals_sector locals_index : option (list string))
    (locals_size : option nat) (data_callback : pyobj (S:=S)) :
  load_name "stock_callback"
    (init_locals locals_symbols locals_sector locals_index locals_size data_callback)
  = Err (NameError "stock_callback").
Proof. reflexivity. Qed.

(** C1. Whatever the arguments, [Dataset.__init__] raises
    [NameError] on the name [stock_callback], which no scope binds: it
    does so after setting [data] and [col_names] to [None] and before
    anything is retrieved (the trace of the run is unchanged), for every
    retrieval function. [MLDataset.__init__], which delegates to it,
    raises the same error. Neither constructor ever returns normally. *)
Theorem constructors_raise_NameError :
  (forall (S : Type) (I : DatasetLike S)
          (get_raw_data : string -> result (ndarray2 * list string))
          (symbols sector index : option (list string)) (size : option nat)
          (data_callback : pyobj (S:=S)) (w : world S),
      exists s',
        Dataset_init get_raw_data symbols sector index size data_callback w =
          (Err (NameError "stock_callback"), mkWorld s' (trace w)) /\
        as_dataset s' = mkDataset None None) /\
  (forall (get_raw_data : string -> result (ndarray2 * list string))
          (symbols sector index : option (list string)) (size : option nat)
          (target_function : option (ndarray2 -> result ndarray1))
          (w : world MLDataset),
      MLDataset_init get_raw_data symbols sector index size target_function w =
        (Err (NameError "stock_callback"),
         mkWorld (mkMLDataset (mkDataset None None) None) (trace w))).
Proof.
  split.
  - intros S I grd symbols sector index size cb [s tr].
    unfold Dataset_init.
    unfold bind at 1. unfold assign_data at 1, on_self, modify. cbn [self trace].
    unfold bind at 1. unfold assign_col_names at 1, on_self, modify.
    cbn [self trace].
    eexists. split.
    + unfold bind, lift. rewrite load_stock_callback. cbn. reflexivity.
    + rewrite !as_with. reflexivity.
  - intros grd symbols sector index size tf [[[d c] t] tr].
    unfold MLDataset_init, Dataset_init.
    unfold bind, on_self, modify, assign_data, assign_col_names, lift.
    rewrite load_stock_callback. reflexivity.
Qed.

(** ** Sanitization *)

Lemma row_is_clean_iff r : row_is_clean r = true <-> ~ has_invalid_feature r.
Proof.
  rewrite has_invalid_feature_iff. destruct (row_is_clean r); split; intros; congruence.
Qed.

Lemma Dataset_delrows_spec d i :
  In i (Dataset_delrows d) <->
  exists r, nth_error (rows d) i = Some r /\ has_invalid_feature r.
Proof.
  unfold Dataset_delrows. rewrite marked_spec. split.
  - intros [j [-> Hj]]. cbn [Nat.add]. rewrite nth_error_map in Hj.
    destruct (nth_error (rows d) j) as [r|]; [|discriminate].
    exists r. split; [reflexivity|].
    apply has_invalid_feature_iff. cbn [option_map] in Hj. congruence.
  - intros [r [Hr Hbad]]. exists i. split; [reflexivity|].
    rewrite nth_error_map, Hr. cbn [option_map]. f_equal.
    apply has_invalid_feature_iff. exact Hbad.
Qed.

(** C5. For every [Dataset] holding a table, [_sanitize] returns normally
    and
    - marks exactly the indices of the rows that have a non-finite,
      non-numeric or null value among their feature columns (index 2
      onward; the two identifier columns are not looked at);
    - deletes the marked rows in one [np.delete] call on the table as it
      was, not index by index;
    - leaves the rows without such a value, in their order. *)
Theorem Dataset_sanitize_removes_invalid_rows :
  forall (d : ndarray2) (c : option (list string)),
  exists (delrows : list nat) (kept : list row),
    (forall i, In i delrows <->
               exists r, nth_error (rows d) i = Some r /\ has_invalid_feature r) /\
    delete_axis0 (rows d) delrows = Ok kept /\
    kept = filter row_is_clean (rows d) /\
    (forall r, row_is_clean r = true <-> ~ has_invalid_feature r) /\
    Dataset_sanitize (mkDataset (Some d) c) =
      (Ok tt, mkDataset (Some (Array2 kept (ncols d))) c).
Proof.
  intros d c.
  exists (Dataset_delrows d), (filter row_is_clean (rows d)).
  split; [apply Dataset_delrows_spec|].
  split; [apply delete_marked|].
  split; [reflexivity|].
  split; [apply row_is_clean_iff|].
  apply Dataset_sanitize_run.
Qed.

(** Deleting the same indices one after the other gives another table:
    the indices of the later rows have shifted. *)
Example one_by_one_differs :
  delete_axis0 [10; 11; 12; 13] [0; 1] = Ok [12; 13] /\
  delete_one_by_one [10; 11; 12; 13] [0; 1] = [11; 13].
Proof. split; reflexivity. Qed.

Lemma ml_kept_checkable (d : ndarray2) (t : ndarray1) :
  forallb target_checkable (map snd (ml_kept d t)) = true.
Proof.
  apply forallb_forall. intros v Hv. apply in_map_iff in Hv.
  destruct Hv as [[r v'] [<- Hin]]. apply filter_In in Hin.
  destruct Hin as [_ Hp]. unfold ml_passes in Hp. cbn in *.
  apply andb_true_iff in Hp. destruct Hp as [_ Hp].
  destruct v'; try discriminate; try reflexivity. exact Hp.
Qed.

Lemma ml_kept_again (d : ndarray2) (t : ndarray1) :
  ml_kept (Array2 (map fst (ml_kept d t)) (ncols d)) (map snd (ml_kept d t)) =
  ml_kept d t.
Proof.
  unfold ml_kept at 1. cbn [rows]. rewrite combine_fst_snd.
  unfold ml_kept. apply filter_idempotent.
Qed.

(** C9. Calling [_sanitize] a second time changes nothing. For a
    [Dataset] holding a table both calls return normally and the second
    leaves the object as the first left it. For an [MLDataset] whose table
    and target are aligned and whose target entries are floats, machine
    integers or [None] (the values [np.isfinite] accepts after the [None]
    test), likewise, table and target included. *)
Theorem sanitize_idempotent :
  (forall (d : ndarray2) (c : option (list string)),
     exists s1,
       Dataset_sanitize (mkDataset (Some d) c) = (Ok tt, s1) /\
       Dataset_sanitize s1 = (Ok tt, s1)) /\
  (forall (d : ndarray2) (c : option (list string)) (t : ndarray1),
     length (rows d) = length t ->
     forallb target_checkable t = true ->
     exists s1,
       MLDataset_sanitize (mkMLDataset (mkDataset (Some d) c) (Some t)) = (Ok tt, s1) /\
       MLDataset_sanitize s1 = (Ok tt, s1)).
Proof.
  split.
  - intros d c. eexists. split; [apply Dataset_sanitize_run|].
    rewrite Dataset_sanitize_run. cbn [rows ncols].
    rewrite filter_idempotent. reflexivity.
  - intros d c t Hlen Hchk. eexists. split.
    + rewrite (MLDataset_sanitize_run d c t Hlen), Hchk. reflexivity.
    + rewrite MLDataset_sanitize_run by (cbn [rows]; rewrite !length_map; reflexivity).
      rewrite ml_kept_checkable, ml_kept_again. reflexivity.
Qed.

Lemma sanitize_idempotent_witness :
  exists s1,
    MLDataset_sanitize
      (mkMLDataset
         (mkDataset (Some (Array2 [[fl 7; fl 8; fl 1; fl 2];
                                   [fl 7; fl 9; fl 3; VFloat S754_nan]] 4))
                    (Some ["symbol"; "date"; "open"; "close"]))
         (Some [fl 10; fl 20])) = (Ok tt, s1) /\
    MLDataset_sanitize s1 = (Ok tt, s1).
Proof.
  apply (proj2 sanitize_idempotent); reflexivity.
Defined.

Lemma keeps_scan_fields {W X} (q : W -> X) r b : keeps q (scan_fields (W:=W) r b).
Proof. unfold scan_fields. auto with keeps. Qed.

#[export] Hint Resolve keeps_scan_fields : keeps.

Lemma Dataset_sanitize_keeps_col_names : keeps col_names Dataset_sanitize.
Proof.
  unfold Dataset_sanitize, Dataset_sanitize_row.
  repeat (apply keeps_bind; [auto 10 with keeps | intro]).
  apply keeps_modify. reflexivity.
Qed.

Lemma MLDataset_sanitize_keeps_col_names : keeps ml_col_names MLDataset_sanitize.
Proof.
  unfold MLDataset_sanitize.
  apply keeps_bind; [auto with keeps | intro n].
  apply keeps_bind.
  { apply keeps_for_in. intros acc i.
    unfold MLDataset_sanitize_row, target_is_bad. auto 12 with keeps. }
  intro delrows.
  apply keeps_bind; [auto with keeps | intro d'].
  apply keeps_bind; [apply keeps_modify; reflexivity | intros _].
  apply keeps_bind; [auto with keeps | intro t'].
  apply keeps_modify. reflexivity.
Qed.

(** C10. [_sanitize] never changes the column names, of a [Dataset] or of
    an [MLDataset], whether the call returns or raises: the only
    attributes it assigns are [data] and, for an [MLDataset], [target]. *)
Theorem sanitize_leaves_col_names_unchanged :
  (forall s : Dataset, col_names (snd (Dataset_sanitize s)) = col_names s) /\
  (forall s : MLDataset, ml_col_names (snd (MLDataset_sanitize s)) = ml_col_names s).
Proof.
  split.
  - exact Dataset_sanitize_keeps_col_names.
  - exact MLDataset_sanitize_keeps_col_names.
Qed.

(** ** Alignment of table and target *)

Lemma delete_nothing {A} (l : list A) : delete_axis0 l [] = Ok l.
Proof.
  assert (Hm : forall k, marked k (map (fun _ : A => true) l) = []).
  { induction l as [|x l IH]; intro k; simpl; [reflexivity | apply IH]. }
  pose proof (delete_marked (fun _ : A => true) l) as Hd.
  rewrite Hm in Hd. rewrite Hd. f_equal.
  clear. induction l as [|x l IH]; simpl; [reflexivity | rewrite IH; reflexivity].
Qed.

Lemma MLDataset_sanitize_same_rows s :
  aligned s -> same_rows_deleted s (snd (MLDataset_sanitize s)).
Proof.
  intros [d [t [Hd [Ht Hlen]]]].
  destruct s as [[d0 c] t0]. unfold ml_data in Hd. cbn in Hd, Ht. subst d0 t0.
  rewrite (MLDataset_sanitize_run d c t Hlen).
  unfold same_rows_deleted, ml_data.
  destruct (forallb target_checkable t); cbn [snd ml_dataset data target].
  - exists d, t, (MLDataset_delrows d t), (map fst (ml_kept d t)),
      (map snd (ml_kept d t)).
    unfold MLDataset_delrows.
    rewrite !delete_marked_flags by (rewrite length_map, length_combine; lia).
    rewrite take_mask_combine_fst, take_mask_combine_snd by assumption.
    repeat split; reflexivity.
  - exists d, t, [], (rows d), t. rewrite !delete_nothing.
    destruct d; repeat split; reflexivity.
Qed.

Lemma sanitize_times_aligned n s : aligned s -> aligned (sanitize_times n s).
Proof.
  intro Hal. induction n as [|n IH]; [exact Hal|].
  apply (MLDataset_sanitize_aligned _ IH).
Qed.

(** C2. Let an [MLDataset] be built by the constructor's
    [_initialize_dataset] pass, over at least one symbol, with the callback
    generated from a target function that returns one entry per row of
    each batch, and let that pass return normally. Then after it, and after
    any number of [_sanitize] calls, [len(data) == len(target)]; and each
    [_sanitize] call deletes one and the same list of indices from the
    table and from the target. *)
Theorem alignment_invariant :
  forall (get_raw_data : string -> result (ndarray2 * list string))
         (target_function : option (ndarray2 -> result ndarray1))
         (tickers : list string) (sector index : option (list string))
         (size : option nat) (w w' : world MLDataset),
    tickers <> [] ->
    ml_data (self w) = None ->
    target (self w) = None ->
    Forall (one_target_per_row get_raw_data target_function) tickers ->
    Dataset_initialize_dataset get_raw_data (Some tickers) sector index size
      (PyFunc (MLDataset_generate_callback target_function)) w = (Ok tt, w') ->
    forall n,
      aligned (sanitize_times n (self w')) /\
      same_rows_deleted (sanitize_times n (self w'))
                        (sanitize_times (Datatypes.S n) (self w')).
Proof.
  intros grd tf tickers sector index size w w' Hne Hd Ht Hall Hrun n.
  assert (Hal : aligned (sanitize_times n (self w'))).
  { apply sanitize_times_aligned.
    exact (ml_initialize_dataset_aligned grd tf tickers sector index size w w'
             Hne Hall Hd Ht Hrun). }
  split; [exact Hal|].
  apply (MLDataset_sanitize_same_rows _ Hal).
Qed.

Lemma sample_one_target_per_row ticker :
  one_target_per_row sample_source sample_target_function ticker.
Proof.
  intros b names v _ Hcall. cbn in Hcall. injection Hcall as <-.
  apply length_map.
Qed.

Lemma alignment_invariant_witness :
  exists w',
    Dataset_initialize_dataset sample_source (Some ["A"; "B"]) None None None
      (PyFunc (MLDataset_generate_callback sample_target_function))
      (mkWorld (mkMLDataset (mkDataset None None) None) []) = (Ok tt, w') /\
    forall n,
      aligned (sanitize_times n (self w')) /\
      same_rows_deleted (sanitize_times n (self w'))
                        (sanitize_times (Datatypes.S n) (self w')).
Proof.
  eexists. split.
  - vm_compute. reflexivity.
  - apply (alignment_invariant sample_source sample_target_function ["A"; "B"]
             None None None
             (mkWorld (mkMLDataset (mkDataset None None) None) [])).
    + discriminate.
    + reflexivity.
    + reflexivity.
    + repeat constructor; apply sample_one_target_per_row.
    + vm_compute. reflexivity.
Defined.

(** ** The object after [_initialize_dataset] *)

Section ConstructionState.

Context {S : Type} `{DatasetLike S}.

Variable get_raw_data : string -> result (ndarray2 * list string).

Lemma store_batch_state (s : S) tr b names :
  (forall d, data (as_dataset s) = Some d -> ncols d = ncols b) ->
  (cur <- self_data ;;
   match cur with
   | None =>
       assign_data (Some b) ;;
       assign_col_names (Some names) ;;
       log (EvAppend b)
   | Some d =>
       stacked <- lift (np_vstack d b) ;;
       assign_data (Some stacked) ;;
       log (EvAppend b)
   end) (mkWorld s tr) = (Ok tt, mkWorld (store_batch b names s) (tr ++ [EvAppend b])).
Proof.
  intro Hcols. unfold store_batch.
  unfold bind at 1. unfold self_data, gets. cbn [self].
  destruct (data (as_dataset s)) as [d|] eqn:Hd.
  - assert (Heq : (ncols d =? ncols b) = true)
      by (apply Nat.eqb_eq; apply Hcols; reflexivity).
    unfold bind, lift, np_vstack, assign_data, on_self, modify, log.
    cbn [self trace]. rewrite Heq. reflexivity.
  - unfold bind, assign_data, assign_col_names, on_self, modify, log.
    cbn [self trace]. rewrite as_with, with_with. reflexivity.
Qed.

Lemma add_symbol_state cb ticker (w : world S) b names :
  get_raw_data ticker = Ok (b, names) ->
  well_behaved cb ->
  (forall d, data (as_dataset (self w)) = Some d -> ncols d = ncols b) ->
  add_symbol get_raw_data cb ticker w =
  (Ok tt, mkWorld (after_symbol get_raw_data cb (self w) ticker)
                  (trace w ++ symbol_events get_raw_data cb ticker)).
Proof.
  intros Hfetch Hwb Hcols. destruct w as [s tr]. cbn [self trace] in *.
  unfold add_symbol, symbol_events, after_symbol, names_of.
  rewrite (batch_of_fetched _ _ _ _ Hfetch).
  unfold bind at 1. unfold log at 1, modify at 1. cbn [self trace].
  unfold bind at 1. unfold lift at 1. rewrite Hfetch.
  destruct cb as [|f| |f]; cbn [truthy callback_effect]; [| |contradiction|].
  - unfold bind at 1. unfold ret at 1.
    rewrite (store_batch_state s (tr ++ [EvFetch ticker]) b names Hcols).
    rewrite <- !app_assoc. reflexivity.
  - destruct (Hwb b s) as [s1 [Hf Hkeep]].
    unfold bind at 1. unfold bind at 1. unfold log at 1, modify at 1.
    cbn [self trace]. unfold on_self at 1, call. cbn [self trace].
    rewrite Hf. cbn [snd].
    assert (Hcols1 : forall d, data (as_dataset s1) = Some d -> ncols d = ncols b)
      by (rewrite Hkeep; exact Hcols).
    rewrite (store_batch_state s1 ((tr ++ [EvFetch ticker]) ++ [EvCallback b])
               b names Hcols1).
    rewrite <- !app_assoc. reflexivity.
  - unfold bind at 1. unfold ret at 1.
    rewrite (store_batch_state s (tr ++ [EvFetch ticker]) b names Hcols).
    rewrite <- !app_assoc. reflexivity.
Qed.

Lemma after_symbol_ncols cb ticker (s : S) b names m :
  get_raw_data ticker = Ok (b, names) ->
  ncols b = m ->
  well_behaved cb ->
  (forall d, data (as_dataset s) = Some d -> ncols d = m) ->
  forall d, data (as_dataset (after_symbol get_raw_data cb s ticker)) = Some d ->
            ncols d = m.
Proof.
  intros Hfetch Hm Hwb Hcols d.
  unfold after_symbol, store_batch. rewrite as_with. cbn [data].
  rewrite (batch_of_fetched _ _ _ _ Hfetch).
  assert (Hkeep : as_dataset (callback_effect cb b s) = as_dataset s).
  { destruct cb as [|f| |f]; cbn [callback_effect]; try reflexivity.
    destruct (Hwb b s) as [s1 [Hf Hk]]. rewrite Hf. exact Hk. }
  rewrite Hkeep. intro Hd. injection Hd as <-.
  unfold beneath. destruct (data (as_dataset s)) as [d0|] eqn:Hd0;
    cbn [ncols]; auto.
Qed.

Lemma symbols_loop_state cb m : forall tickers (w : world S),
  well_behaved cb ->
  Forall (retrievable get_raw_data m) tickers ->
  (forall d, data (as_dataset (self w)) = Some d -> ncols d = m) ->
  for_in tickers (fun _ ticker => add_symbol get_raw_data cb ticker) tt w =
  (Ok tt, mkWorld (fold_left (after_symbol get_raw_data cb) tickers (self w))
                  (trace w ++ flat_map (symbol_events get_raw_data cb) tickers)).
Proof.
  induction tickers as [|ticker tickers IH]; intros w Hwb Hall Hcols.
  - cbn [for_in fold_left flat_map]. unfold ret. rewrite app_nil_r.
    destruct w; reflexivity.
  - inversion Hall as [|? ? [b [names [Hfetch Hm]]] Hrest]; subst.
    cbn [for_in fold_left flat_map].
    rewrite (bind_ok _ _ _ _ _ (add_symbol_state cb ticker w b names Hfetch Hwb Hcols)).
    rewrite IH; [|exact Hwb|exact Hrest|].
    + cbn [self trace]. rewrite <- app_assoc. reflexivity.
    + cbn [self].
      apply (after_symbol_ncols cb ticker (self w) b names (ncols b) Hfetch
               eq_refl Hwb Hcols).
Qed.

Lemma Dataset_initialize_dataset_state cb m tickers sector index size (w : world S) :
  well_behaved cb ->
  Forall (retrievable get_raw_data m) tickers ->
  (forall d, data (as_dataset (self w)) = Some d -> ncols d = m) ->
  Dataset_initialize_dataset get_raw_data (Some tickers) sector index size cb w =
  (Ok tt, mkWorld (fold_left (after_symbol get_raw_data cb) tickers (self w))
                  (trace w ++ flat_map (symbol_events get_raw_data cb) tickers)).
Proof.
  intros Hwb Hall Hcols. unfold Dataset_initialize_dataset.
  rewrite (bind_ok _ _ _ _ _ (symbols_loop_state cb m tickers w Hwb Hall Hcols)).
  destruct sector, index, size; reflexivity.
Qed.

End ConstructionState.

(** ** The dtype of a join *)

Lemma promote_same d : promote d d = d.
Proof. destruct d; reflexivity. Qed.

Lemma cast_to_own (cells : list value) v :
  In v cells -> cast_to (dtype_of_cells cells) v = v.
Proof.
  intro Hv. unfold dtype_of_cells.
  destruct (forallb is_float_cell cells) eqn:Hf.
  { rewrite forallb_forall in Hf. specialize (Hf v Hv).
    destruct v; try discriminate; reflexivity. }
  destruct (forallb is_int64_cell cells) eqn:Hi.
  { rewrite forallb_forall in Hi. specialize (Hi v Hv).
    destruct v; try discriminate; reflexivity. }
  destruct (forallb is_uint64_cell cells) eqn:Hu.
  { rewrite forallb_forall in Hu. specialize (Hu v Hv).
    destruct v; try discriminate; reflexivity. }
  destruct (forallb is_text_cell cells) eqn:Ht.
  { rewrite forallb_forall in Ht. specialize (Ht v Hv).
    destruct v; try discriminate; reflexivity. }
  destruct v; reflexivity.
Qed.

Lemma cast_rows_own (a : ndarray2) : cast_rows (dtype2 a) (rows a) = rows a.
Proof.
  unfold cast_rows, dtype2. rewrite <- (map_id (rows a)) at 3.
  apply map_ext_in. intros r Hr.
  rewrite <- (map_id r) at 2. apply map_ext_in. intros v Hv.
  apply cast_to_own. apply in_concat. exists r. split; assumption.
Qed.

Lemma cast_entries_own (t : ndarray1) : map (cast_to (dtype1 t)) t = t.
Proof.
  unfold dtype1. rewrite <- (map_id t) at 3.
  apply map_ext_in. intros v Hv. apply cast_to_own. exact Hv.
Qed.

(** Arrays of one dtype are joined cell for cell. *)
Lemma stacked_rows_same (a b : ndarray2) :
  dtype2 a = dtype2 b -> stacked_rows a b = rows a ++ rows b.
Proof.
  intro Hsame. unfold stacked_rows. rewrite <- Hsame, promote_same.
  rewrite cast_rows_own. rewrite Hsame, cast_rows_own. reflexivity.
Qed.

Lemma np_append_flat_same (a b : ndarray1) :
  dtype1 a = dtype1 b -> np_append_flat a b = a ++ b.
Proof.
  intro Hsame. unfold np_append_flat. rewrite <- Hsame, promote_same.
  rewrite cast_entries_own. rewrite Hsame, cast_entries_own. reflexivity.
Qed.

Lemma dtype_of_cells_app (l1 l2 : list value) (d : dtype) :
  dtype_of_cells l1 = d -> dtype_of_cells l2 = d -> dtype_of_cells (l1 ++ l2) = d.
Proof.
  unfold dtype_of_cells. rewrite !forallb_app.
  destruct (forallb is_float_cell l1), (forallb is_float_cell l2),
    (forallb is_int64_cell l1), (forallb is_int64_cell l2),
    (forallb is_uint64_cell l1), (forallb is_uint64_cell l2),
    (forallb is_text_cell l1), (forallb is_text_cell l2);
    cbn [andb]; intros <-; intro Hd; try exact Hd; try discriminate Hd;
    reflexivity.
Qed.

(** ** Accumulation and the callback *)

Lemma firstn_length_app {A} (l1 l2 : list A) : firstn (length l1) (l1 ++ l2) = l1.
Proof. induction l1 as [|x l1 IH]; simpl; [destruct l2 | rewrite IH]; reflexivity. Qed.

Lemma skipn_length_app {A} (l1 l2 : list A) : skipn (length l1) (l1 ++ l2) = l2.
Proof. induction l1 as [|x l1 IH]; simpl; auto. Qed.

(** C7. Let [_initialize_dataset] run on a fresh object over the symbols
    [A] and [B], whose retrieval yields the batches [bA] and [bB] with the
    same number of columns and the same dtype, with no callback or with one
    that returns normally and leaves the table alone. It returns normally with a table
    of [len(bA) + len(bB)] rows, whose first [len(bA)] rows are those of
    [bA] in order and whose next [len(bB)] rows are those of [bB] in
    order; the column names are those of the first batch. *)
Theorem accumulation_order :
  forall (S : Type) (I : DatasetLike S)
         (get_raw_data : string -> result (ndarray2 * list string))
         (A B : string) (bA bB : ndarray2) (namesA namesB : list string)
         (sector index : option (list string)) (size : option nat)
         (data_callback : pyobj (S:=S)) (w : world S),
    get_raw_data A = Ok (bA, namesA) ->
    get_raw_data B = Ok (bB, namesB) ->
    ncols bA = ncols bB ->
    dtype2 bA = dtype2 bB ->
    well_behaved data_callback ->
    fresh (self w) ->
    exists w' table,
      Dataset_initialize_dataset get_raw_data (Some [A; B]) sector index size
        data_callback w = (Ok tt, w') /\
      data (as_dataset (self w')) = Some table /\
      length (rows table) = length (rows bA) + length (rows bB) /\
      firstn (length (rows bA)) (rows table) = rows bA /\
      firstn (length (rows bB)) (skipn (length (rows bA)) (rows table)) = rows bB /\
      col_names (as_dataset (self w')) = Some namesA.
Proof.
  intros S I grd A B bA bB namesA namesB sector index size cb w
         HA HB Hcols Hdtype Hwb Hfresh.
  unfold fresh in Hfresh.
  assert (Hall : Forall (retrievable grd (ncols bA)) [A; B]).
  { repeat constructor.
    - exists bA, namesA. auto.
    - exists bB, namesB. auto. }
  assert (Hnone : forall d, data (as_dataset (self w)) = Some d -> ncols d = ncols bA)
    by (rewrite Hfresh; cbn; discriminate).
  destruct (Dataset_initialize_dataset_run grd cb (ncols bA) [A; B] sector index
              size w Hwb Hall Hnone) as [w' [Hrun [_ [Hdata Hnames]]]].
  rewrite Hfresh in Hdata, Hnames. cbn [data col_names] in Hdata, Hnames.
  cbn [map accumulate fold_left beneath] in Hdata.
  rewrite (batch_of_fetched grd A bA namesA HA) in Hdata.
  rewrite (batch_of_fetched grd B bB namesB HB) in Hdata.
  unfold names_of in Hnames. rewrite HA in Hnames.
  rewrite (stacked_rows_same bA bB Hdtype) in Hdata.
  exists w', (Array2 (rows bA ++ rows bB) (ncols bA)). cbn [rows].
  repeat split; auto.
  - apply length_app.
  - apply firstn_length_app.
  - rewrite skipn_length_app. rewrite <- (app_nil_r (rows bB)) at 2.
    apply firstn_length_app.
Qed.

Lemma counting_callback_well_behaved : well_behaved (PyFunc counting_callback).
Proof. intros b s. eexists. split; reflexivity. Qed.

Lemma accumulation_order_witness :
  exists w' table,
    Dataset_initialize_dataset sample_source (Some ["A"; "B"]) None None None
      (PyFunc counting_callback) (mkWorld (mkDataset None None, 0) []) = (Ok tt, w') /\
    data (as_dataset (self w')) = Some table /\
    length (rows table) = length (rows batch_A) + length (rows batch_B) /\
    firstn (length (rows batch_A)) (rows table) = rows batch_A /\
    firstn (length (rows batch_B)) (skipn (length (rows batch_A)) (rows table)) =
      rows batch_B /\
    col_names (as_dataset (self w')) = Some sample_names.
Proof.
  apply (accumulation_order (Dataset * nat) _ sample_source "A" "B"
           batch_A batch_B sample_names sample_names).
  - reflexivity.
  - reflexivity.
  - reflexivity.
  - reflexivity.
  - exact counting_callback_well_behaved.
  - reflexivity.
Defined.




(** The counting callback of the sample run was called twice. *)
Example counting_callback_fired_twice :
  snd (self (snd (Dataset_initialize_dataset sample_source (Some ["A"; "B"])
                    None None None (PyFunc counting_callback)
                    (mkWorld (mkDataset None None, 0) [])))) = 2.
Proof. vm_compute. reflexivity. Qed.

(** ** Where the code departs from the specification *)

(** C3. [MLDataset._sanitize] scans the whole row, identifier columns
    included, where [Dataset._sanitize] scans the feature columns only. A
    row whose features are finite floats and whose target is finite, but
    whose identifier columns hold text, is deleted by [MLDataset._sanitize]
    together with its target entry; [Dataset._sanitize] keeps the same
    row. *)
Theorem MLDataset_sanitize_scans_identifier_columns :
  ~ has_invalid_feature identified_row /\
  target_passes (fl 10) = true /\
  MLDataset_sanitize identified_dataset =
    (Ok tt, mkMLDataset (mkDataset (Some (Array2 [] 4)) (Some sample_names))
                        (Some [])) /\
  Dataset_sanitize (ml_dataset identified_dataset) =
    (Ok tt, ml_dataset identified_dataset).
Proof.
  split; [apply row_is_clean_iff; reflexivity|].
  repeat split; reflexivity.
Qed.

(** What [MLDataset._sanitize] keeps, for an aligned object whose target
    entries are floats, machine integers or [None]: the rows all of whose
    fields are finite floats and whose target entry is finite. *)
Lemma MLDataset_sanitize_keeps (d : ndarray2) c (t : ndarray1) :
  length (rows d) = length t ->
  forallb target_checkable t = true ->
  MLDataset_sanitize (mkMLDataset (mkDataset (Some d) c) (Some t)) =
  (Ok tt,
   mkMLDataset
     (mkDataset (Some (Array2 (map fst (ml_kept d t)) (ncols d))) c)
     (Some (map snd (ml_kept d t)))).
Proof.
  intros Hlen Hchk. rewrite (MLDataset_sanitize_run d c t Hlen), Hchk.
  reflexivity.
Qed.

Lemma MLDataset_training_data_run float_of_string (a : ndarray2) c t :
  MLDataset_training_data float_of_string (mkMLDataset (mkDataset (Some a) c) t) =
  (astype_float2 float_of_string (Array2 (skipn 2 (rows a)) (ncols a)),
   mkMLDataset (mkDataset (Some a) c) t).
Proof. reflexivity. Qed.

(** C4. [training_data] slices the rows, not the columns: of a table of
    three rows and four columns it returns the last row with all its four
    columns, where the feature columns are the three rows restricted to
    their last two columns. *)
Theorem training_data_slices_rows :
  forall (float_of_string : string -> option spec_float)
         (c : option (list string)) (t : option ndarray1),
    MLDataset_training_data float_of_string
      (mkMLDataset (mkDataset (Some numeric_table) c) t) =
      (Ok (Array2 [[fl 9; fl 10; fl 11; fl 12]] 4),
       mkMLDataset (mkDataset (Some numeric_table) c) t) /\
    astype_float2 float_of_string (feature_columns numeric_table) =
      Ok (Array2 [[fl 3; fl 4]; [fl 7; fl 8]; [fl 11; fl 12]] 2).
Proof.
  intros parse c t. split; reflexivity.
Qed.

(** C6. Iterating an [MLDataset] that has a table and a target raises
    [ValueError] and yields nothing: the transpose of the one-dimensional
    target is one-dimensional, and [np.append] along axis 1 refuses to join
    it to the two-dimensional table. *)
Theorem MLDataset_iter_raises :
  forall (d : ndarray2) (c : option (list string)) (t : ndarray1),
    MLDataset_iter (mkMLDataset (mkDataset (Some d) c) (Some t)) =
    (Err ValueError, mkMLDataset (mkDataset (Some d) c) (Some t)).
Proof.
  intros d c t.
  unfold MLDataset_iter, bind, gets, lift. cbn [ml_data ml_dataset data target].
  unfold transpose, np_append_axis1. cbn [ndim Nat.eqb negb].
  reflexivity.
Qed.

(** * Further properties of data/dataset.py *)

(** ** What [_initialize_dataset] does on the edges *)

Lemma for_in_app {W A B} (l1 l2 : list B) (body : A -> B -> M W A) :
  forall acc w,
    for_in (l1 ++ l2) body acc w =
    bind (for_in l1 body acc) (fun acc' => for_in l2 body acc') w.
Proof.
  induction l1 as [|x l1 IH]; intros acc w.
  - reflexivity.
  - cbn [app for_in]. unfold bind.
    destruct (body acc x w) as [[a|e] w1]; [|reflexivity].
    rewrite IH. reflexivity.
Qed.

(** X1. The arguments [sector], [index] and [size] have no effect on
    [_initialize_dataset]: whatever they are, the outcome and the object
    left behind are those of the call without them. *)
Theorem initialize_ignores_filters :
  forall (S : Type) (I : DatasetLike S)
         (get_raw_data : string -> result (ndarray2 * list string))
         (symbols sector index : option (list string)) (size : option nat)
         (data_callback : pyobj (S:=S)) (w : world S),
    Dataset_initialize_dataset get_raw_data symbols sector index size
      data_callback w =
    Dataset_initialize_dataset get_raw_data symbols None None None
      data_callback w.
Proof.
  intros S I grd symbols sector index size cb w.
  unfold Dataset_initialize_dataset. unfold bind at 1 4.
  destruct (match symbols with
            | Some tickers =>
                for_in tickers (fun _ ticker => add_symbol grd cb ticker) tt
            | None => ret tt
            end w) as [[[]|e] w1]; [|reflexivity].
  destruct sector, index, size; reflexivity.
Qed.

(** X2. Without symbols ([None] or the empty list) [_initialize_dataset]
    returns normally and changes nothing: no retrieval, no callback, no
    table. On an object that has no table, [len], iteration and
    [_sanitize] then raise [TypeError] and leave the object as it is. *)
Theorem no_symbols_no_table :
  forall (S : Type) (I : DatasetLike S)
         (get_raw_data : string -> result (ndarray2 * list string))
         (symbols sector index : option (list string)) (size : option nat)
         (data_callback : pyobj (S:=S)) (w : world S),
    symbols = None \/ symbols = Some [] ->
    Dataset_initialize_dataset get_raw_data symbols sector index size
      data_callback w = (Ok tt, w) /\
    (data (as_dataset (self w)) = None ->
     Dataset_len (as_dataset (self w)) = (Err TypeError, as_dataset (self w)) /\
     Dataset_iter (as_dataset (self w)) = (Err TypeError, as_dataset (self w)) /\
     Dataset_sanitize (as_dataset (self w)) = (Err TypeError, as_dataset (self w))).
Proof.
  intros S I grd symbols sector index size cb w Hsym. split.
  - unfold Dataset_initialize_dataset.
    destruct Hsym as [-> | ->]; destruct sector, index, size; reflexivity.
  - intro Hnone. destruct (as_dataset (self w)) as [d c]. cbn in Hnone. subst d.
    repeat split; reflexivity.
Qed.

Lemma no_symbols_no_table_witness :
  Dataset_initialize_dataset sample_source (Some []) None None (Some 5)
    (PyFunc counting_callback) (mkWorld (mkDataset None None, 0) []) =
    (Ok tt, mkWorld (mkDataset None None, 0) []) /\
  (data (mkDataset None None) = None ->
   Dataset_len (mkDataset None None) = (Err TypeError, mkDataset None None) /\
   Dataset_iter (mkDataset None None) = (Err TypeError, mkDataset None None) /\
   Dataset_sanitize (mkDataset None None) = (Err TypeError, mkDataset None None)).
Proof.
  exact (no_symbols_no_table (Dataset * nat) _ sample_source (Some []) None None
           (Some 5) (PyFunc counting_callback)
           (mkWorld (mkDataset None None, 0) []) (or_intror eq_refl)).
Defined.

Section ConstructionFailures.

Context {S : Type} `{DatasetLike S}.

Variable get_raw_data : string -> result (ndarray2 * list string).

Lemma add_symbol_fetch_fails cb ticker (w : world S) e :
  get_raw_data ticker = Err e ->
  add_symbol get_raw_data cb ticker w =
  (Err e, mkWorld (self w) (trace w ++ [EvFetch ticker])).
Proof.
  intro Hfetch. unfold add_symbol.
  unfold bind at 1. unfold log at 1, modify at 1.
  unfold bind at 1. unfold lift at 1. rewrite Hfetch. reflexivity.
Qed.

End ConstructionFailures.

(** X3. A symbol that cannot be retrieved aborts [_initialize_dataset]
    with the retrieval's exception. The symbols before it have been
    processed in full, the table holds their batches, and the failing
    symbol and those after it reach neither the callback nor the table. *)
Theorem retrieval_failure_aborts :
  forall (S : Type) (I : DatasetLike S)
         (get_raw_data : string -> result (ndarray2 * list string))
         (before after : list string) (ticker : string) (e : exn) (m : nat)
         (sector index : option (list string)) (size : option nat)
         (data_callback : pyobj (S:=S)) (w : world S),
    well_behaved data_callback ->
    Forall (retrievable get_raw_data m) before ->
    get_raw_data ticker = Err e ->
    fresh (self w) ->
    exists w',
      Dataset_initialize_dataset get_raw_data (Some (before ++ ticker :: after))
        sector index size data_callback w = (Err e, w') /\
      trace w' = trace w ++ flat_map (symbol_events get_raw_data data_callback) before
                         ++ [EvFetch ticker] /\
      data (as_dataset (self w')) =
        accumulate None (map (batch_of get_raw_data) before).
Proof.
  intros S I grd before after ticker e m sector index size cb w
         Hwb Hall Hfail Hfresh.
  unfold fresh in Hfresh.
  assert (Hnone : forall d, data (as_dataset (self w)) = Some d -> ncols d = m)
    by (rewrite Hfresh; cbn; discriminate).
  destruct (symbols_loop_run grd cb m before w Hwb Hall Hnone)
    as [w1 [Hrun [Htr [Hdata _]]]].
  exists (mkWorld (self w1) (trace w1 ++ [EvFetch ticker])).
  split; [|split].
  - unfold Dataset_initialize_dataset. apply bind_err.
    rewrite for_in_app. rewrite (bind_ok _ _ _ _ _ Hrun).
    cbn [for_in]. apply bind_err. apply add_symbol_fetch_fails. exact Hfail.
  - cbn [trace]. rewrite Htr, <- app_assoc. reflexivity.
  - cbn [self]. rewrite Hdata, Hfresh. reflexivity.
Qed.

Lemma retrieval_failure_aborts_witness :
  exists w',
    Dataset_initialize_dataset sample_source (Some (["A"] ++ "C" :: ["B"]))
      None None None (PyFunc counting_callback)
      (mkWorld (mkDataset None None, 0) []) = (Err ValueError, w') /\
    trace w' = [] ++ flat_map (symbol_events sample_source (PyFunc counting_callback)) ["A"]
                  ++ [EvFetch "C"] /\
    data (as_dataset (self w')) =
      accumulate None (map (batch_of sample_source) ["A"]).
Proof.
  apply (retrieval_failure_aborts (Dataset * nat) _ sample_source ["A"] ["B"] "C"
           ValueError 4 None None None (PyFunc counting_callback)
           (mkWorld (mkDataset None None, 0) [])).
  - exact counting_callback_well_behaved.
  - repeat constructor. exists batch_A, sample_names. split; reflexivity.
  - reflexivity.
  - reflexivity.
Defined.

(** X6. With the default target function, [None], a pass over symbols
    whose first one is retrieved raises [TypeError] at the first call of
    the generated callback: that batch has been fetched but nothing is
    stored, neither table nor target. *)
Theorem missing_target_function_fails :
  forall (get_raw_data : string -> result (ndarray2 * list string))
         (ticker : string) (others : list string)
         (b : ndarray2) (names : list string)
         (sector index : option (list string)) (size : option nat)
         (w : world MLDataset),
    get_raw_data ticker = Ok (b, names) ->
    Dataset_initialize_dataset get_raw_data (Some (ticker :: others))
      sector index size (PyFunc (MLDataset_generate_callback None)) w =
    (Err TypeError,
     mkWorld (self w) (trace w ++ [EvFetch ticker; EvCallback b])).
Proof.
  intros grd ticker others b names sector index size [[ds tg] tr] Hfetch.
  unfold Dataset_initialize_dataset. apply bind_err.
  cbn [for_in]. apply bind_err.
  unfold add_symbol.
  unfold bind at 1. unfold log at 1, modify at 1.
  unfold bind at 1. unfold lift at 1. rewrite Hfetch.
  cbn [truthy self trace]. apply bind_err. 
  unfold bind, log, modify, on_self, call, MLDataset_generate_callback, gets, lift.
  cbn [self trace target call_target_function].
  rewrite <- app_assoc. destruct tg; reflexivity.
Qed.

Lemma missing_target_function_fails_witness :
  Dataset_initialize_dataset sample_source (Some ("A" :: ["B"]))
    None None None (PyFunc (MLDataset_generate_callback None))
    (mkWorld (mkMLDataset (mkDataset None None) None) []) =
  (Err TypeError,
   mkWorld (mkMLDataset (mkDataset None None) None)
           ([] ++ [EvFetch "A"; EvCallback batch_A])).
Proof.
  apply (missing_target_function_fails sample_source "A" ["B"] batch_A sample_names
           None None None (mkWorld (mkMLDataset (mkDataset None None) None) [])).
  reflexivity.
Defined.

(** ** Table and target of an [MLDataset] under construction *)

Section MLConstructionRuns.

Variable get_raw_data : string -> result (ndarray2 * list string).
Variable target_function : option (ndarray2 -> result ndarray1).

Let generate_target_data := PyFunc (MLDataset_generate_callback target_function).

(** One turn of the loop, the target function returning [v] *)
Lemma ml_add_symbol_run ticker (w : world MLDataset) b names v :
  get_raw_data ticker = Ok (b, names) ->
  call_target_function target_function b = Ok v ->
  add_symbol get_raw_data generate_target_data ticker w =
  match ml_data (self w) with
  | None =>
      (Ok tt,
       mkWorld (mkMLDataset (mkDataset (Some b) (Some names))
                            (Some (extended (target (self w)) v)))
               (trace w ++ [EvFetch ticker; EvCallback b; EvAppend b]))
  | Some d =>
      if ncols d =? ncols b
      then (Ok tt,
            mkWorld (mkMLDataset
                       (mkDataset (Some (Array2 (stacked_rows d b) (ncols d)))
                                  (ml_col_names (self w)))
                       (Some (extended (target (self w)) v)))
                    (trace w ++ [EvFetch ticker; EvCallback b; EvAppend b]))
      else (Err ValueError,
            mkWorld (mkMLDataset (ml_dataset (self w))
                                 (Some (extended (target (self w)) v)))
                    (trace w ++ [EvFetch ticker; EvCallback b]))
  end.
Proof.
  intros Hfetch Hcall. destruct w as [[[d c] tg] tr].
  unfold add_symbol, generate_target_data, MLDataset_generate_callback.
  unfold bind, log, modify, lift, on_self, call, gets, self_data, assign_data,
    assign_col_names, ret, ml_data, ml_col_names, extended.
  cbn [self trace truthy target ml_dataset data col_names].
  rewrite Hfetch. rewrite Hcall.
  destruct tg as [t|], d as [d|]; cbn -[stacked_rows np_append_flat];
    unfold np_vstack; try destruct (ncols d =? ncols b);
    cbn -[stacked_rows np_append_flat]; rewrite <- ?app_assoc; reflexivity.
Qed.

Lemma ml_symbols_loop_run m : forall tickers (w : world MLDataset),
  Forall (retrievable get_raw_data m) tickers ->
  Forall (target_computable get_raw_data target_function) tickers ->
  (forall d, ml_data (self w) = Some d -> ncols d = m) ->
  exists w',
    for_in tickers (fun _ ticker => add_symbol get_raw_data generate_target_data ticker)
           tt w = (Ok tt, w') /\
    ml_data (self w') =
      accumulate (ml_data (self w)) (map (batch_of get_raw_data) tickers) /\
    target (self w') =
      fold_left (fun cur v => Some (extended cur v))
                (map (targets_of get_raw_data target_function) tickers)
                (target (self w)).
Proof.
  induction tickers as [|ticker tickers IH]; intros w Hret Hcomp Hcols.
  - exists w. repeat split; reflexivity.
  - inversion Hret as [|? ? [b [names [Hfetch Hm]]] Hret']; subst.
    inversion Hcomp as [|? ? [v Hv] Hcomp']; subst.
    pose proof (batch_of_fetched get_raw_data ticker b names Hfetch) as Hb.
    rewrite Hb in Hv.
    pose proof (ml_add_symbol_run ticker w b names v Hfetch Hv) as Hstep.
    assert (Hstep' : exists w1,
               add_symbol get_raw_data generate_target_data ticker w = (Ok tt, w1) /\
               ml_data (self w1) = Some (beneath (ml_data (self w)) b) /\
               target (self w1) = Some (extended (target (self w)) v)).
    { destruct (ml_data (self w)) as [d|] eqn:Hd.
      - pose proof (Hcols d eq_refl) as Hc.
        rewrite Hc, Nat.eqb_refl in Hstep.
        eexists. split; [exact Hstep|]. split; [|reflexivity].
        unfold ml_data, beneath. cbn [self ml_dataset data]. rewrite Hc.
        reflexivity.
      - eexists. split; [exact Hstep|]. split; reflexivity. }
    destruct Hstep' as [w1 [Hrun1 [Hd1 Ht1]]].
    assert (Hcols1 : forall d, ml_data (self w1) = Some d -> ncols d = ncols b).
    { intros d Hd. rewrite Hd1 in Hd. injection Hd as <-.
      unfold beneath. destruct (ml_data (self w)) as [d0|] eqn:Hd0;
        cbn [ncols]; auto. }
    destruct (IH w1 Hret' Hcomp' Hcols1) as [w' [Hrun [Hd' Ht']]].
    exists w'. cbn [for_in]. rewrite (bind_ok _ _ _ _ _ Hrun1).
    split; [exact Hrun|]. split.
    + rewrite Hd', Hd1. cbn [map accumulate fold_left]. rewrite Hb. reflexivity.
    + assert (Htv : targets_of get_raw_data target_function ticker = v)
        by (unfold targets_of; rewrite Hb, Hv; reflexivity).
      rewrite Ht', Ht1. cbn [map fold_left]. rewrite Htv. reflexivity.
Qed.

End MLConstructionRuns.

Lemma accumulate_rows (bs : list ndarray2) : forall (d : ndarray2),
  Forall (fun b => dtype2 b = dtype2 d) bs ->
  accumulate (Some d) bs = Some (Array2 (rows d ++ concat (map rows bs)) (ncols d)).
Proof.
  unfold accumulate.
  induction bs as [|b bs IH]; intros d Hall; cbn [fold_left map concat].
  - rewrite app_nil_r. destruct d; reflexivity.
  - inversion Hall as [|? ? Hb Hbs]; subst.
    cbn [beneath]. rewrite (stacked_rows_same d b (eq_sym Hb)).
    rewrite IH.
    + cbn [rows ncols]. rewrite <- app_assoc. reflexivity.
    + assert (Hd : dtype2 (Array2 (rows d ++ rows b) (ncols d)) = dtype2 d).
      { unfold dtype2. cbn [rows]. rewrite concat_app.
        apply dtype_of_cells_app; [reflexivity | exact Hb]. }
      rewrite Hd. exact Hbs.
Qed.

Lemma extended_targets (vs : list ndarray1) : forall (t : ndarray1),
  Forall (fun v => dtype1 v = dtype1 t) vs ->
  fold_left (fun cur v => Some (extended cur v)) vs (Some t) = Some (t ++ concat vs).
Proof.
  induction vs as [|v vs IH]; intros t Hall; cbn [fold_left concat].
  - rewrite app_nil_r. reflexivity.
  - inversion Hall as [|? ? Hv Hvs]; subst.
    cbn [extended]. rewrite (np_append_flat_same t v (eq_sym Hv)).
    rewrite IH.
    + rewrite <- app_assoc. reflexivity.
    + assert (Ht : dtype1 (t ++ v) = dtype1 t)
        by (apply dtype_of_cells_app; [reflexivity | exact Hv]).
      rewrite Ht. exact Hvs.
Qed.

(** X5. Let [_initialize_dataset] run on a fresh [MLDataset] over a
    non-empty list of symbols, all retrieved with one column count and one
    dtype, with the callback generated from a target function that returns
    normally on each batch, with one dtype. It returns normally; the table
    is the batches one beneath the other in the order of the symbols, and
    the target is what the target function returned for each batch, joined
    in the same order. *)
Theorem table_and_target_accumulate_in_order :
  forall (get_raw_data : string -> result (ndarray2 * list string))
         (target_function : option (ndarray2 -> result ndarray1))
         (ticker : string) (others : list string) (m : nat)
         (sector index : option (list string)) (size : option nat)
         (w : world MLDataset),
    Forall (retrievable get_raw_data m) (ticker :: others) ->
    Forall (target_computable get_raw_data target_function) (ticker :: others) ->
    Forall (fun t => dtype2 (batch_of get_raw_data t) =
                     dtype2 (batch_of get_raw_data ticker)) others ->
    Forall (fun t => dtype1 (targets_of get_raw_data target_function t) =
                     dtype1 (targets_of get_raw_data target_function ticker))
           others ->
    ml_data (self w) = None ->
    target (self w) = None ->
    exists w' table,
      Dataset_initialize_dataset get_raw_data (Some (ticker :: others))
        sector index size
        (PyFunc (MLDataset_generate_callback target_function)) w = (Ok tt, w') /\
      ml_data (self w') = Some table /\
      rows table =
        concat (map (fun t => rows (batch_of get_raw_data t)) (ticker :: others)) /\
      target (self w') =
        Some (concat (map (targets_of get_raw_data target_function)
                          (ticker :: others))).
Proof.
  intros grd tf ticker others m sector index size w Hret Hcomp Hdt2 Hdt1 Hd Ht.
  assert (Hcols : forall d, ml_data (self w) = Some d -> ncols d = m)
    by (rewrite Hd; discriminate).
  destruct (ml_symbols_loop_run grd tf m (ticker :: others) w Hret Hcomp Hcols)
    as [w' [Hrun [Hd' Ht']]].
  rewrite Hd in Hd'. rewrite Ht in Ht'.
  cbn [map accumulate fold_left beneath extended] in Hd', Ht'.
  fold (accumulate (Some (batch_of grd ticker)) (map (batch_of grd) others)) in Hd'.
  rewrite accumulate_rows in Hd'
    by (apply Forall_map; exact Hdt2).
  rewrite extended_targets in Ht'
    by (apply Forall_map; exact Hdt1).
  exists w'. eexists. split; [|split; [exact Hd'|split; [|exact Ht']]].
  - unfold Dataset_initialize_dataset. rewrite (bind_ok _ _ _ _ _ Hrun).
    destruct sector, index, size; reflexivity.
  - cbn [rows map concat]. rewrite map_map. reflexivity.
Qed.

Lemma sample_target_computable ticker :
  target_computable sample_source sample_target_function ticker.
Proof. eexists. reflexivity. Qed.

Lemma table_and_target_accumulate_in_order_witness :
  exists w' table,
    Dataset_initialize_dataset sample_source (Some ("A" :: ["B"])) None None None
      (PyFunc (MLDataset_generate_callback sample_target_function))
      (mkWorld (mkMLDataset (mkDataset None None) None) []) = (Ok tt, w') /\
    ml_data (self w') = Some table /\
    rows table = concat (map (fun t => rows (batch_of sample_source t)) ("A" :: ["B"])) /\
    target (self w') =
      Some (concat (map (targets_of sample_source sample_target_function)
                        ("A" :: ["B"]))).
Proof.
  apply (table_and_target_accumulate_in_order sample_source sample_target_function
           "A" ["B"] 4).
  - repeat constructor.
    + exists batch_A, sample_names. split; reflexivity.
    + exists batch_B, sample_names. split; reflexivity.
  - repeat constructor; apply sample_target_computable.
  - repeat constructor.
  - repeat constructor.
  - reflexivity.
  - reflexivity.
Defined.

(** X4. A second batch whose column count differs from the first aborts
    [_initialize_dataset] with [ValueError], raised by [np.vstack] after
    the callback has run on that batch: the table of the [MLDataset] holds
    the first batch only, while its target already holds the target
    entries of both batches, as [np.append] joined them: cast to their
    common dtype, which leaves them as they were, the first batch's then
    the second's, when the two outputs have one dtype. *)
Theorem column_mismatch_aborts_after_callback :
  forall (get_raw_data : string -> result (ndarray2 * list string))
         (target_function : option (ndarray2 -> result ndarray1))
         (A B : string) (others : list string)
         (bA bB : ndarray2) (namesA namesB : list string) (tA tB : ndarray1)
         (sector index : option (list string)) (size : option nat)
         (w : world MLDataset),
    ml_data (self w) = None ->
    target (self w) = None ->
    get_raw_data A = Ok (bA, namesA) ->
    get_raw_data B = Ok (bB, namesB) ->
    ncols bA <> ncols bB ->
    call_target_function target_function bA = Ok tA ->
    call_target_function target_function bB = Ok tB ->
    Dataset_initialize_dataset get_raw_data (Some (A :: B :: others))
      sector index size
      (PyFunc (MLDataset_generate_callback target_function)) w =
    (Err ValueError,
     mkWorld (mkMLDataset (mkDataset (Some bA) (Some namesA))
                          (Some (np_append_flat tA tB)))
             (trace w ++ [EvFetch A; EvCallback bA; EvAppend bA;
                          EvFetch B; EvCallback bB])) /\
    (dtype1 tA = dtype1 tB -> np_append_flat tA tB = tA ++ tB).
Proof.
  intros grd tf A B others bA bB namesA namesB tA tB sector index size w
         Hd Ht HA HB Hne HtA HtB.
  split; [|apply np_append_flat_same].
  unfold Dataset_initialize_dataset. apply bind_err.
  cbn [for_in].
  pose proof (ml_add_symbol_run grd tf A w bA namesA tA HA HtA) as HstepA.
  rewrite Hd, Ht in HstepA. cbn [extended] in HstepA.
  rewrite (bind_ok _ _ _ _ _ HstepA). apply bind_err.
  rewrite (ml_add_symbol_run grd tf B _ bB namesB tB HB HtB).
  unfold ml_data. cbn [self trace ml_dataset data target extended].
  apply Nat.eqb_neq in Hne. rewrite Hne.
  rewrite <- app_assoc. reflexivity.
Qed.

Lemma column_mismatch_aborts_after_callback_witness :
  Dataset_initialize_dataset mixed_source (Some ("A" :: "N" :: ["B"]))
    None None None
    (PyFunc (MLDataset_generate_callback sample_target_function))
    (mkWorld (mkMLDataset (mkDataset None None) None) []) =
  (Err ValueError,
   mkWorld (mkMLDataset (mkDataset (Some batch_A)
                                   (Some sample_names))
                        (Some (np_append_flat [fl 10; fl 10] [fl 10])))
           ([] ++ [EvFetch "A"; EvCallback batch_A; EvAppend batch_A;
                   EvFetch "N"; EvCallback narrow_batch])) /\
  (dtype1 [fl 10; fl 10] = dtype1 [fl 10] ->
   np_append_flat [fl 10; fl 10] [fl 10] = [fl 10; fl 10] ++ [fl 10]).
Proof.
  apply (column_mismatch_aborts_after_callback mixed_source sample_target_function
           "A" "N" ["B"] batch_A narrow_batch sample_names
           ["symbol"; "date"; "open"]).
  - reflexivity.
  - reflexivity.
  - reflexivity.
  - reflexivity.
  - cbn. lia.
  - reflexivity.
  - reflexivity.
Defined.

(** ** After [Dataset._sanitize] *)

Lemma kept_and_marked {A} (p : A -> bool) (l : list A) : forall k,
  length (filter p l) + length (marked k (map p l)) = length l.
Proof.
  induction l as [|x l IH]; intro k; cbn [filter map marked length].
  - reflexivity.
  - specialize (IH (Datatypes.S k)). destruct (p x); cbn [length]; lia.
Qed.

Lemma filter_all {A} (p : A -> bool) (l : list A) :
  filter p l = l <-> Forall (fun x => p x = true) l.
Proof.
  split.
  - intro Hf. apply Forall_forall. intros x Hx.
    rewrite <- Hf in Hx. apply filter_In in Hx. tauto.
  - induction 1 as [|x l Hx _ IH]; cbn [filter]; [reflexivity|].
    rewrite Hx, IH. reflexivity.
Qed.

Lemma filter_passes {A} (p : A -> bool) (l : list A) :
  Forall (fun x => p x = true) (filter p l).
Proof. apply Forall_forall. intros x Hx. apply filter_In in Hx. tauto. Qed.

(** X7. After [_sanitize], iterating a [Dataset] yields the rows that
    have no invalid feature, all of them and in table order, and [len]
    counts them: the length before, less the number of rows marked. *)
Theorem sanitize_then_iterate :
  forall (d : ndarray2) (c : option (list string)),
  exists s' kept n',
    Dataset_sanitize (mkDataset (Some d) c) = (Ok tt, s') /\
    Dataset_iter s' = (Ok kept, s') /\
    Dataset_len s' = (Ok n', s') /\
    kept = filter row_is_clean (rows d) /\
    Forall (fun r => ~ has_invalid_feature r) kept /\
    n' = length kept /\
    n' + length (Dataset_delrows d) = length (rows d).
Proof.
  intros d c.
  exists (mkDataset (Some (Array2 (filter row_is_clean (rows d)) (ncols d))) c),
    (filter row_is_clean (rows d)), (length (filter row_is_clean (rows d))).
  split; [apply Dataset_sanitize_run|].
  repeat split.
  - pose proof (filter_passes row_is_clean (rows d)) as Hp.
    apply Forall_forall. intros r Hr.
    rewrite Forall_forall in Hp. apply row_is_clean_iff. apply Hp. exact Hr.
  - apply kept_and_marked.
Qed.

(** X8. [_sanitize] leaves the table of a [Dataset] exactly as it was if
    and only if no row has an invalid feature. *)
Theorem sanitize_changes_nothing_iff_clean :
  forall (d : ndarray2) (c : option (list string)),
    Dataset_sanitize (mkDataset (Some d) c) = (Ok tt, mkDataset (Some d) c) <->
    Forall (fun r => ~ has_invalid_feature r) (rows d).
Proof.
  intros [rs n] c. rewrite Dataset_sanitize_run. cbn [rows ncols].
  assert (Hiff : Forall (fun r => ~ has_invalid_feature r) rs <->
                 Forall (fun r => row_is_clean r = true) rs).
  { rewrite !Forall_forall. split; intros Hall r Hr.
    - apply row_is_clean_iff. auto.
    - apply row_is_clean_iff. auto. }
  rewrite Hiff, <- filter_all. split.
  - intro Heq. injection Heq as Heq. exact Heq.
  - intros ->. reflexivity.
Qed.

(** ** After [MLDataset._sanitize] *)

Lemma whole_row_is_clean_iff r :
  whole_row_is_clean r = true <-> Forall (fun v => ~ invalid_field v) r.
Proof.
  unfold whole_row_is_clean. rewrite forallb_forall, Forall_forall.
  split; intros Hall v Hv.
  - rewrite invalid_field_iff. rewrite (Hall v Hv). discriminate.
  - specialize (Hall v Hv). rewrite invalid_field_iff in Hall.
    destruct (finite_float v); congruence.
Qed.

(** X9. After [_sanitize] on an aligned [MLDataset] whose target entries
    [np.isfinite] accepts, each remaining row is still paired with its own
    target entry: the remaining pairs are the original (row, target) pairs
    that pass, in their order. In each of them no field of the row is
    invalid, identifier columns included, and the target entry is finite. *)
Theorem MLDataset_sanitize_keeps_pairs :
  forall (d : ndarray2) (c : option (list string)) (t : ndarray1),
    length (rows d) = length t ->
    forallb target_checkable t = true ->
    exists (d' : ndarray2) (t' : ndarray1),
      MLDataset_sanitize (mkMLDataset (mkDataset (Some d) c) (Some t)) =
        (Ok tt, mkMLDataset (mkDataset (Some d') c) (Some t')) /\
      length (rows d') = length t' /\
      combine (rows d') t' = filter ml_passes (combine (rows d) t) /\
      Forall (fun rt => Forall (fun v => ~ invalid_field v) (fst rt) /\
                        target_passes (snd rt) = true)
             (combine (rows d') t').
Proof.
  intros d c t Hlen Hchk.
  exists (Array2 (map fst (ml_kept d t)) (ncols d)), (map snd (ml_kept d t)).
  split; [apply MLDataset_sanitize_keeps; assumption|].
  cbn [rows]. rewrite combine_fst_snd.
  split; [rewrite !length_map; reflexivity|].
  split; [reflexivity|].
  unfold ml_kept. pose proof (filter_passes ml_passes (combine (rows d) t)) as Hp.
  rewrite Forall_forall in *. intros rt Hrt. specialize (Hp rt Hrt).
  unfold ml_passes in Hp. apply andb_true_iff in Hp. destruct Hp as [Hr Hv].
  split; [apply whole_row_is_clean_iff; exact Hr | exact Hv].
Qed.

Lemma MLDataset_sanitize_keeps_pairs_witness :
  exists (d' : ndarray2) (t' : ndarray1),
    MLDataset_sanitize
      (mkMLDataset (mkDataset (Some numeric_table) (Some sample_names))
                   (Some [fl 10; VNone; fl 30])) =
      (Ok tt, mkMLDataset (mkDataset (Some d') (Some sample_names)) (Some t')) /\
    length (rows d') = length t' /\
    combine (rows d') t' =
      filter ml_passes (combine (rows numeric_table) [fl 10; VNone; fl 30]) /\
    Forall (fun rt => Forall (fun v => ~ invalid_field v) (fst rt) /\
                      target_passes (snd rt) = true)
           (combine (rows d') t').
Proof.
  apply (MLDataset_sanitize_keeps_pairs numeric_table (Some sample_names)
           [fl 10; VNone; fl 30]); reflexivity.
Defined.

Lemma nth_error_at_length {A} (l : list A) : nth_error l (length l) = None.
Proof. apply nth_error_None. lia. Qed.

Lemma MLDataset_sanitize_row_short d c pre r rest (t : ndarray1) acc :
  rows d = pre ++ r :: rest ->
  length t = length pre ->
  MLDataset_sanitize_row acc (length pre)
    (mkMLDataset (mkDataset (Some d) c) (Some t)) =
  (Err IndexError, mkMLDataset (mkDataset (Some d) c) (Some t)).
Proof.
  intros Hd Hlen. unfold MLDataset_sanitize_row.
  unfold bind at 1. unfold bind at 1. unfold gets, lift, getitem2, ml_data.
  cbn [data ml_dataset]. rewrite Hd, nth_error_middle.
  unfold bind at 1. rewrite scan_fields_eq.
  apply bind_err. unfold target_is_bad. apply bind_err.
  unfold bind, gets, lift, getitem1. cbn [target].
  rewrite <- Hlen, nth_error_at_length. reflexivity.
Qed.

Lemma MLDataset_loop_short d c (t : ndarray1) : forall trest rest pre tpre acc,
  rows d = pre ++ rest ->
  t = tpre ++ trest ->
  length tpre = length pre ->
  length trest < length rest ->
  for_in (seq (length pre) (length rest)) MLDataset_sanitize_row acc
         (mkMLDataset (mkDataset (Some d) c) (Some t)) =
  (Err (if forallb target_checkable trest then IndexError else TypeError),
   mkMLDataset (mkDataset (Some d) c) (Some t)).
Proof.
  induction trest as [|v trest IH]; intros [|r rest] pre tpre acc Hd Ht Hl1 Hl2;
    cbn [length] in Hl2; try lia.
  - rewrite app_nil_r in Ht. subst tpre.
    cbn [length seq for_in forallb]. apply bind_err.
    apply (MLDataset_sanitize_row_short d c pre r rest t acc Hd Hl1).
  - subst t.
    pose proof (MLDataset_sanitize_row_run d c pre r rest tpre v trest acc Hd Hl1)
      as Hrow.
    cbn [length seq for_in forallb]. destruct (target_checkable v).
    + rewrite (bind_ok _ _ _ _ _ Hrow).
      assert (Hd' : rows d = (pre ++ [r]) ++ rest)
        by (rewrite <- app_assoc; exact Hd).
      assert (Ht' : tpre ++ v :: trest = (tpre ++ [v]) ++ trest)
        by (rewrite <- app_assoc; reflexivity).
      assert (Hl1' : length (tpre ++ [v]) = length (pre ++ [r]))
        by (rewrite !length_app; simpl; lia).
      assert (Hl2' : length trest < length rest) by lia.
      specialize (IH rest (pre ++ [r]) (tpre ++ [v])
                     (acc ++ marked (length pre) [ml_passes (r, v)])
                     Hd' Ht' Hl1' Hl2').
      rewrite length_app in IH. cbn [length] in IH.
      rewrite Nat.add_1_r in IH. cbn [andb]. exact IH.
    + rewrite (bind_err _ _ _ _ _ Hrow). reflexivity.
Qed.

(** X10. When the target of an [MLDataset] has fewer entries than the
    table has rows, [_sanitize] raises and deletes nothing: table and
    target are left as they were. The exception is [IndexError], raised at
    the first row without a target entry, unless some target entry is one
    that [np.isfinite] rejects (text, or an integer too large for a
    machine integer): then it is the [TypeError] raised at that entry. *)
Theorem MLDataset_sanitize_short_target :
  forall (d : ndarray2) (c : option (list string)) (t : ndarray1),
    length t < length (rows d) ->
    MLDataset_sanitize (mkMLDataset (mkDataset (Some d) c) (Some t)) =
    (Err (if forallb target_checkable t then IndexError else TypeError),
     mkMLDataset (mkDataset (Some d) c) (Some t)).
Proof.
  intros d c t Hlen. unfold MLDataset_sanitize.
  unfold bind at 1. unfold bind at 1. unfold gets at 1. unfold lift at 1.
  cbn [ml_data ml_dataset data py_len2].
  apply bind_err.
  apply (MLDataset_loop_short d c t t (rows d) [] [] []); auto.
Qed.

Lemma MLDataset_sanitize_short_target_witness :
  MLDataset_sanitize
    (mkMLDataset (mkDataset (Some numeric_table) None) (Some [fl 10; fl 20])) =
  (Err IndexError,
   mkMLDataset (mkDataset (Some numeric_table) None) (Some [fl 10; fl 20])).
Proof.
  apply (MLDataset_sanitize_short_target numeric_table None [fl 10; fl 20]).
  cbn. lia.
Defined.

(** A short target holding text: the [TypeError] of [np.isfinite] comes
    before the missing entry is reached. *)
Example short_target_with_text :
  MLDataset_sanitize
    (mkMLDataset (mkDataset (Some numeric_table) None) (Some [fl 10; VStr "n/a"])) =
  (Err TypeError,
   mkMLDataset (mkDataset (Some numeric_table) None) (Some [fl 10; VStr "n/a"])).
Proof. vm_compute. reflexivity. Qed.

(** X11. When some target entry of an aligned [MLDataset] is one that
    [np.isfinite] rejects (text, or an integer too large for a machine
    integer), [_sanitize] raises [TypeError] and deletes nothing, even if
    other rows are invalid. *)
Theorem MLDataset_sanitize_rejected_target :
  forall (d : ndarray2) (c : option (list string)) (t : ndarray1),
    length (rows d) = length t ->
    forallb target_checkable t = false ->
    MLDataset_sanitize (mkMLDataset (mkDataset (Some d) c) (Some t)) =
    (Err TypeError, mkMLDataset (mkDataset (Some d) c) (Some t)).
Proof.
  intros d c t Hlen Hchk.
  rewrite (MLDataset_sanitize_run d c t Hlen), Hchk. reflexivity.
Qed.

Lemma MLDataset_sanitize_rejected_target_witness :
  MLDataset_sanitize
    (mkMLDataset (mkDataset (Some batch_A) None) (Some [fl 10; VStr "n/a"])) =
  (Err TypeError,
   mkMLDataset (mkDataset (Some batch_A) None) (Some [fl 10; VStr "n/a"])).
Proof.
  apply (MLDataset_sanitize_rejected_target batch_A None [fl 10; VStr "n/a"]);
    reflexivity.
Defined.




(** ** [pretty_data] and [target_data] *)






(** The header above a table of floats: the numbers have become text. *)
Example pretty_data_of_floats :
  fst (Dataset_pretty_data
         (mkDataset (Some (Array2 [[VFloat S754_nan; VFloat (S754_zero false)]] 2))
                    (Some ["open"; "close"]))) =
  Ok (Array2 [[VStr "open"; VStr "close"];
              [VRepr S754_nan; VRepr (S754_zero false)]] 2).
Proof. reflexivity. Qed.

Lemma astype_float_row_floats float_of_string (l : list value) :
  Forall (fun v => exists f, v = VFloat f) l ->
  astype_float_row float_of_string l = Ok l.
Proof.
  induction 1 as [|v l [f ->] _ IH]; cbn [astype_float_row to_float].
  - reflexivity.
  - rewrite IH. reflexivity.
Qed.

(** X14. After [_sanitize] on an aligned [MLDataset] whose target
    entries are floats or [None], [target_data] returns the stored target
    as it is: every remaining entry is already a finite float, and the
    coercion to float has nothing left to change. *)
Theorem target_data_after_sanitize :
  forall (float_of_string : string -> option spec_float)
         (d : ndarray2) (c : option (list string)) (t : ndarray1),
    length (rows d) = length t ->
    forallb float_or_None t = true ->
    exists s' (t' : ndarray1),
      MLDataset_sanitize (mkMLDataset (mkDataset (Some d) c) (Some t)) = (Ok tt, s') /\
      target s' = Some t' /\
      Forall (fun v => exists f, v = VFloat f /\ float_isfinite f = true) t' /\
      MLDataset_target_data float_of_string s' = (Ok t', s').
Proof.
  intros parse d c t Hlen Hfn.
  assert (Hchk : forallb target_checkable t = true).
  { rewrite forallb_forall in *. intros v Hv. specialize (Hfn v Hv).
    destruct v; try discriminate; reflexivity. }
  assert (Hfin : Forall (fun v => exists f, v = VFloat f /\ float_isfinite f = true)
                        (map snd (ml_kept d t))).
  { apply Forall_forall. intros v Hv. apply in_map_iff in Hv.
    destruct Hv as [[r v'] [Heq Hin]]. cbn in Heq. subst v'.
    unfold ml_kept in Hin. apply filter_In in Hin. destruct Hin as [Hin Hp].
    apply in_combine_r in Hin. rewrite forallb_forall in Hfn.
    specialize (Hfn v Hin). unfold ml_passes in Hp.
    apply andb_true_iff in Hp. destruct Hp as [_ Hp]. cbn [snd] in Hp.
    destruct v as [f| | | |]; try discriminate. exists f. auto. }
  eexists. exists (map snd (ml_kept d t)).
  split; [apply MLDataset_sanitize_keeps; assumption|].
  split; [reflexivity|]. split; [exact Hfin|].
  unfold MLDataset_target_data, bind, gets, lift. cbn [target].
  rewrite astype_float_row_floats; [reflexivity|].
  apply Forall_forall. intros v Hv. rewrite Forall_forall in Hfin.
  destruct (Hfin v Hv) as [f [-> _]]. exists f. reflexivity.
Qed.

Lemma target_data_after_sanitize_witness :
  exists s' (t' : ndarray1),
    MLDataset_sanitize
      (mkMLDataset (mkDataset (Some numeric_table) None)
                   (Some [fl 10; VNone; fl 30])) = (Ok tt, s') /\
    target s' = Some t' /\
    Forall (fun v => exists f, v = VFloat f /\ float_isfinite f = true) t' /\
    MLDataset_target_data (fun _ => None) s' = (Ok t', s').
Proof.
  apply (target_data_after_sanitize (fun _ => None) numeric_table None
           [fl 10; VNone; fl 30]); reflexivity.
Defined.

(** * Properties of stocksdb/database.py *)

(** ** Slices and comprehensions *)

Lemma items_by_index {A} (l : list A) : forall pre,
  flat_map (fun k => match nth_error (pre ++ l) k with
                     | Some x => [x]
                     | None => []
                     end)
           (seq (length pre) (length l)) = l.
Proof.
  induction l as [|x l IH]; intro pre; cbn [length seq flat_map].
  - reflexivity.
  - rewrite nth_error_middle. cbn [app]. f_equal.
    specialize (IH (pre ++ [x])).
    rewrite length_app, <- app_assoc in IH. cbn [length app] in IH.
    rewrite Nat.add_1_r in IH. exact IH.
Qed.

(** [l[len(l)-1:0:-1]] is the list without its first item, reversed. *)
Lemma slice_backward_drops_first {A} (l : list A) :
  slice_backward l (Z.of_nat (length l) - 1) 0 = rev (tl l).
Proof.
  destruct l as [|h t]; [reflexivity|].
  unfold slice_backward. cbn [tl].
  set (n := length t).
  assert (Hlen : Z.of_nat (length (h :: t)) = (Z.of_nat n + 1)%Z)
    by (cbn [length]; fold n; lia).
  rewrite Hlen.
  assert (Hfirst : adjust_index_backward (Z.of_nat n + 1) (Z.of_nat n + 1 - 1)
                   = Z.of_nat n).
  { unfold adjust_index_backward.
    destruct (Z.ltb_spec (Z.of_nat n + 1 - 1) 0); [lia|].
    destruct (Z.leb_spec (Z.of_nat n + 1) (Z.of_nat n + 1 - 1)); lia. }
  assert (Hbound : adjust_index_backward (Z.of_nat n + 1) 0 = 0%Z).
  { unfold adjust_index_backward.
    destruct (Z.ltb_spec 0 0); [lia|].
    destruct (Z.leb_spec (Z.of_nat n + 1) 0); lia. }
  rewrite Hfirst, Hbound.
  replace (Z.to_nat (Z.of_nat n - 0)) with (length (rev t))
    by (rewrite length_rev; fold n; lia).
  rewrite <- (items_by_index (rev t) []) at 2. cbn [app length].
  rewrite !flat_map_concat_map. f_equal. apply map_ext_in.
  intros k Hk. apply in_seq in Hk. rewrite length_rev in Hk. fold n in Hk.
  replace (Z.to_nat (Z.of_nat n - Z.of_nat k)) with (Datatypes.S (n - Datatypes.S k))
    by lia.
  cbn [nth_error]. rewrite nth_error_rev. fold n.
  destruct (Nat.ltb_spec k n); [reflexivity | lia].
Qed.

Lemma comprehension_all {A B} (f : A -> result B) (g : A -> B) (l : list A) :
  Forall (fun x => f x = Ok (g x)) l -> comprehension f l = Ok (map g l).
Proof.
  induction 1 as [|x l Hx _ IH]; cbn [comprehension map and_then].
  - reflexivity.
  - rewrite Hx. cbn [and_then]. rewrite IH. reflexivity.
Qed.

Lemma comprehension_raises {A B} (f : A -> result B) (e : exn) (l : list A) :
  Forall (fun x => (exists y, f x = Ok y) \/ f x = Err e) l ->
  Exists (fun x => f x = Err e) l ->
  comprehension f l = Err e.
Proof.
  induction 1 as [|x l Hx Hall IH]; intro Hex.
  - inversion Hex.
  - cbn [comprehension].
    destruct Hx as [[y Hy]|Hx].
    + rewrite Hy. cbn [and_then].
      inversion Hex as [? ? Hbad|? ? Hrest]; subst; [congruence|].
      rewrite (IH Hrest). reflexivity.
    + rewrite Hx. reflexivity.
Qed.

Section StockDBFacts.

Variables symbol quote date : Type.
Variable new_Symbol : string -> string -> option string -> option string -> symbol.
Variable new_Quote :
  string -> string -> string -> string -> string -> string -> string -> quote.
Variable new_date : nat -> nat -> nat -> date.
Variable today : date.
Variable strftime : date -> string -> string.
Variable get_historical_prices : string -> string -> string -> result (list (list string)).
Variable count_symbols : string -> result nat.

(** The body of the comprehension of [download_quotes] *)
Let quote_of (ticker : string) (val : list string) : result quote :=
  and_then (getitem_list val 0) (fun v0 =>
  and_then (getitem_list val 1) (fun v1 =>
  and_then (getitem_list val 2) (fun v2 =>
  and_then (getitem_list val 3) (fun v3 =>
  and_then (getitem_list val 4) (fun v4 =>
  and_then (getitem_list val 5) (fun v5 =>
  Ok (new_Quote ticker v0 v1 v2 v3 v4 v5))))))).

Lemma quote_of_long ticker val :
  6 <= length val -> quote_of ticker val = Ok (row_quote new_Quote ticker val).
Proof.
  destruct val as [|v0 [|v1 [|v2 [|v3 [|v4 [|v5 more]]]]]]; cbn [length];
    try lia.
  intros _. reflexivity.
Qed.

Lemma quote_of_short ticker val :
  length val < 6 -> quote_of ticker val = Err IndexError.
Proof.
  destruct val as [|v0 [|v1 [|v2 [|v3 [|v4 [|v5 more]]]]]]; cbn [length];
    try lia; intros _; reflexivity.
Qed.

Lemma download_quotes_run ticker start_date end_date data :
  get_historical_prices (str_lower ticker) (strftime start_date "%Y%m%d")
                        (strftime end_date "%Y%m%d") = Ok data ->
  download_quotes new_Quote strftime get_historical_prices ticker start_date end_date =
  comprehension (quote_of (str_lower ticker)) (rev (tl data)).
Proof.
  intro Hdata. unfold download_quotes. rewrite Hdata. cbn [and_then].
  rewrite slice_backward_drops_first. reflexivity.
Qed.

End StockDBFacts.

(** X15. [download_quotes] asks the provider for the lower-cased ticker
    and, of the rows it gets, drops the first (the header) and turns the
    others, last row first, into quotes of that ticker, each made of the
    first six fields of its row. An empty or header-only answer gives no
    quote. If a row after the header has fewer than six fields the call
    raises [IndexError]. *)
Theorem download_quotes_reverses_and_drops_header :
  forall (quote date : Type)
         (new_Quote : string -> string -> string -> string -> string -> string ->
                      string -> quote)
         (strftime : date -> string -> string)
         (get_historical_prices : string -> string -> string ->
                                  result (list (list string)))
         (ticker : string) (start_date end_date : date)
         (data : list (list string)),
    get_historical_prices (str_lower ticker) (strftime start_date "%Y%m%d")
                          (strftime end_date "%Y%m%d") = Ok data ->
    (Forall (fun val => 6 <= length val) (tl data) ->
     exists quotes,
       download_quotes new_Quote strftime get_historical_prices
                       ticker start_date end_date = Ok quotes /\
       quotes = map (row_quote new_Quote (str_lower ticker)) (rev (tl data)) /\
       length quotes = length data - 1) /\
    (Exists (fun val => length val < 6) (tl data) ->
     download_quotes new_Quote strftime get_historical_prices
                     ticker start_date end_date = Err IndexError).
Proof.
  intros quote date new_Quote strftime provider ticker d1 d2 data Hdata.
  rewrite (download_quotes_run quote date new_Quote strftime provider
             ticker d1 d2 data Hdata).
  split.
  - intro Hlong. eexists. split; [|split; [reflexivity|]].
    + apply comprehension_all. apply Forall_rev.
      apply Forall_forall. intros val Hval. rewrite Forall_forall in Hlong.
      apply quote_of_long. auto.
    + rewrite length_map, length_rev. destruct data; cbn [tl length]; lia.
  - intro Hshort. apply comprehension_raises.
    + apply Forall_forall. intros val _.
      destruct (Nat.lt_ge_cases (length val) 6) as [Hlt|Hge].
      * right. apply quote_of_short. exact Hlt.
      * left. eexists. apply quote_of_long. exact Hge.
    + apply Exists_exists. rewrite Exists_exists in Hshort.
      destruct Hshort as [val [Hin Hlt]]. exists val. split.
      * apply in_rev. rewrite rev_involutive. exact Hin.
      * apply quote_of_short. exact Hlt.
Qed.

Lemma download_quotes_reverses_and_drops_header_witness :
  (exists quotes,
     download_quotes sample_new_Quote sample_strftime sample_provider
                     "GOOG" (2012, 1, 3) (2012, 1, 4) = Ok quotes /\
     quotes = map (row_quote sample_new_Quote (str_lower "GOOG"))
                  (rev (tl sample_prices)) /\
     length quotes = length sample_prices - 1) /\
  download_quotes sample_new_Quote sample_strftime short_provider
                  "GOOG" (2012, 1, 3) (2012, 1, 4) = Err IndexError.
Proof.
  split.
  - apply (proj1 (download_quotes_reverses_and_drops_header
                    (list string) (nat * nat * nat) sample_new_Quote
                    sample_strftime sample_provider "GOOG" (2012, 1, 3) (2012, 1, 4)
                    sample_prices eq_refl)).
    repeat constructor; cbn; lia.
  - apply (proj2 (download_quotes_reverses_and_drops_header
                    (list string) (nat * nat * nat) sample_new_Quote
                    sample_strftime short_provider "GOOG" (2012, 1, 3) (2012, 1, 4)
                    _ eq_refl)).
    apply Exists_cons_hd. cbn. lia.
Defined.

(** The quotes of the sample answer: oldest day first, header gone. *)
Example sample_quotes :
  download_quotes sample_new_Quote sample_strftime sample_provider
                  "GOOG" (2012, 1, 3) (2012, 1, 4) =
  Ok [["goog"; "2012-01-03"; "10"; "11"; "9"; "10.5"; "800"];
      ["goog"; "2012-01-04"; "11"; "12"; "10"; "11.5"; "900"]].
Proof. vm_compute. reflexivity. Qed.

(** ** Sessions *)

(** X16. [add_stock] never adds a stock. Whatever its arguments, it
    opens a session and then raises [NameError] on the name
    [check_stock_exists], which it calls as a global function though it is
    a method: nothing is printed, added or committed, and the session it
    opened is not closed. *)
Theorem add_stock_raises_NameError :
  forall (symbol quote date : Type)
         (new_Symbol : string -> string -> option string -> option string -> symbol)
         (new_date : nat -> nat -> nat -> date) (today : date)
         (ticker name : string) (sector industry : option string)
         (w : db symbol quote),
    add_stock new_Symbol new_date today ticker name sector industry w =
    (Err (NameError "check_stock_exists"),
     mkDb (Datatypes.S (next_session w))
          (db_log w ++ [Opened symbol quote (next_session w)])).
Proof.
  intros symbol quote date new_Symbol new_date today ticker name sector industry
         [n events].
  unfold add_stock. unfold bind at 1.
  unfold open_session, bind, gets, modify, ret. cbn [next_session db_log].
  reflexivity.
Qed.

(** X17. [create_database] never creates the tables: it raises
    [NameError] on the name [Engine], bound nowhere in its scope, before
    [create_all] is called. *)
Theorem create_database_raises_NameError :
  forall (symbol quote date : Type) (w : db symbol quote),
    @create_database symbol quote date w = (Err (NameError "Engine"), w).
Proof. intros symbol quote date w. reflexivity. Qed.

(** X18. [check_stock_exists] never closes a session. Called without
    one, it opens a session, counts the symbols with the lower-cased
    ticker and answers whether there is at least one, and the session it
    opened stays open, also when the count raises. Called with a session,
    it counts on that session and leaves it open. *)
Theorem check_stock_exists_never_closes :
  forall (symbol quote : Type) (count_symbols : string -> result nat)
         (ticker : string) (w : db symbol quote),
    let answer := match count_symbols (str_lower ticker) with
                  | Ok n => Ok (negb (n =? 0))
                  | Err e => Err e
                  end in
    check_stock_exists count_symbols ticker None w =
      (answer,
       mkDb (Datatypes.S (next_session w))
            (db_log w ++ [Opened symbol quote (next_session w);
                          Counted symbol quote (next_session w) (str_lower ticker)])) /\
    forall session,
      check_stock_exists count_symbols ticker (Some session) w =
        (answer,
         mkDb (next_session w)
              (db_log w ++ [Counted symbol quote session (str_lower ticker)])).
Proof.
  intros symbol quote count_symbols ticker [n events]. cbn zeta. split.
  - unfold check_stock_exists, session_count, open_session, db_do.
    unfold bind, gets, modify, ret, lift. cbn [next_session db_log].
    rewrite <- app_assoc.
    destruct (count_symbols (str_lower ticker)); reflexivity.
  - intro session.
    unfold check_stock_exists, session_count, open_session, db_do.
    unfold bind, gets, modify, ret, lift. cbn [next_session db_log].
    destruct (count_symbols (str_lower ticker)); reflexivity.
Qed.

(** * The table of a [Dataset] over any number of symbols *)

Lemma callback_arguments_app (tr1 tr2 : list event) :
  callback_arguments (tr1 ++ tr2) = callback_arguments tr1 ++ callback_arguments tr2.
Proof. unfold callback_arguments. apply flat_map_app. Qed.

Lemma callback_arguments_of_symbols {S : Type}
    (get_raw_data : string -> result (ndarray2 * list string))
    (data_callback : pyobj (S:=S)) (tickers : list string) :
  callback_arguments (flat_map (symbol_events get_raw_data data_callback) tickers) =
  if truthy data_callback then map (batch_of get_raw_data) tickers else [].
Proof.
  induction tickers as [|t tickers IH]; cbn [flat_map map].
  - destruct (truthy data_callback); reflexivity.
  - rewrite callback_arguments_app, IH. unfold symbol_events.
    destruct (truthy data_callback); reflexivity.
Qed.

(** X19. Let [_initialize_dataset] run on a fresh object over a
    non-empty list of symbols, all retrieved with one column count and one
    dtype, with no callback, a callable that is false in a test, or a
    function that returns normally and leaves the table alone. It returns
    normally; the object it leaves is the one obtained by running, for each
    symbol in order, the callback (a function only: [None] and a false
    callable are not called) and then storing the batch; the table is the
    batches one beneath the other in the order of the symbols, [len] is the
    sum of the batches' lengths, the column names are those of the first
    symbol, and the calls of the callback were on each batch in order, or
    none at all when the callback is not true in a test. *)
Theorem table_is_batches_in_order :
  forall (S : Type) (I : DatasetLike S)
         (get_raw_data : string -> result (ndarray2 * list string))
         (ticker : string) (others : list string) (m : nat)
         (sector index : option (list string)) (size : option nat)
         (data_callback : pyobj (S:=S)) (w : world S),
    Forall (retrievable get_raw_data m) (ticker :: others) ->
    Forall (fun t => dtype2 (batch_of get_raw_data t) =
                     dtype2 (batch_of get_raw_data ticker)) others ->
    well_behaved data_callback ->
    fresh (self w) ->
    exists w' table,
      Dataset_initialize_dataset get_raw_data (Some (ticker :: others))
        sector index size data_callback w = (Ok tt, w') /\
      self w' =
        fold_left (after_symbol get_raw_data data_callback) (ticker :: others)
                  (self w) /\
      data (as_dataset (self w')) = Some table /\
      rows table =
        concat (map (fun t => rows (batch_of get_raw_data t)) (ticker :: others)) /\
      Dataset_len (as_dataset (self w')) =
        (Ok (list_sum (map (fun t => length (rows (batch_of get_raw_data t)))
                           (ticker :: others))),
         as_dataset (self w')) /\
      col_names (as_dataset (self w')) = Some (names_of get_raw_data ticker) /\
      callback_arguments (trace w') =
        callback_arguments (trace w) ++
        (if truthy data_callback
         then map (batch_of get_raw_data) (ticker :: others)
         else []).
Proof.
  intros S I grd ticker others m sector index size cb w Hall Hdt Hwb Hfresh.
  unfold fresh in Hfresh.
  assert (Hnone : forall d, data (as_dataset (self w)) = Some d -> ncols d = m)
    by (rewrite Hfresh; cbn; discriminate).
  destruct (Dataset_initialize_dataset_run grd cb m (ticker :: others) sector
              index size w Hwb Hall Hnone) as [w' [Hrun [Htr [Hdata Hnames]]]].
  pose proof (Dataset_initialize_dataset_state grd cb m (ticker :: others) sector
                index size w Hwb Hall Hnone) as Hstate.
  rewrite Hrun in Hstate. injection Hstate as Hstate.
  rewrite Hfresh in Hdata, Hnames. cbn [data col_names] in Hdata, Hnames.
  cbn [map accumulate fold_left beneath] in Hdata.
  fold (accumulate (Some (batch_of grd ticker)) (map (batch_of grd) others)) in Hdata.
  rewrite accumulate_rows in Hdata by (apply Forall_map; exact Hdt).
  exists w'. eexists.
  split; [exact Hrun|]. split; [rewrite Hstate; reflexivity|].
  split; [exact Hdata|].
  assert (Hrows : rows (batch_of grd ticker) ++
                  concat (map rows (map (batch_of grd) others)) =
                  concat (map (fun t => rows (batch_of grd t)) (ticker :: others)))
    by (cbn [map concat]; rewrite map_map; reflexivity).
  split; [exact Hrows|]. split; [|split; [exact Hnames|]].
  - unfold Dataset_len, bind, gets, lift. rewrite Hdata. cbn [py_len2 rows].
    rewrite Hrows, length_concat, map_map. reflexivity.
  - rewrite Htr, callback_arguments_app, callback_arguments_of_symbols.
    reflexivity.
Qed.

Lemma table_is_batches_in_order_witness :
  exists w' table,
    Dataset_initialize_dataset sample_source (Some ("A" :: ["B"])) None None None
      (PyFunc counting_callback) (mkWorld (mkDataset None None, 0) []) = (Ok tt, w') /\
    self w' =
      fold_left (after_symbol sample_source (PyFunc counting_callback)) ("A" :: ["B"])
                (mkDataset None None, 0) /\
    data (as_dataset (self w')) = Some table /\
    rows table = concat (map (fun t => rows (batch_of sample_source t)) ("A" :: ["B"])) /\
    Dataset_len (as_dataset (self w')) =
      (Ok (list_sum (map (fun t => length (rows (batch_of sample_source t)))
                         ("A" :: ["B"]))),
       as_dataset (self w')) /\
    col_names (as_dataset (self w')) = Some (names_of sample_source "A") /\
    callback_arguments (trace w') =
      callback_arguments [] ++
      (if truthy (PyFunc counting_callback)
       then map (batch_of sample_source) ("A" :: ["B"])
       else []).
Proof.
  apply (table_is_batches_in_order (Dataset * nat) _ sample_source "A" ["B"] 4).
  - repeat constructor.
    + exists batch_A, sample_names. split; reflexivity.
    + exists batch_B, sample_names. split; reflexivity.
  - repeat constructor.
  - exact counting_callback_well_behaved.
  - reflexivity.
Defined.

(** A callable that is false in a test is never called: the counter of the
    sample run stays at 0 and the trace holds no call. *)
Example falsy_callback_is_skipped :
  let w' := snd (Dataset_initialize_dataset sample_source (Some ["A"; "B"])
                   None None None falsy_counting_callback
                   (mkWorld (mkDataset None None, 0) [])) in
  snd (self w') = 0 /\ callback_arguments (trace w') = [].
Proof. vm_compute. split; reflexivity. Qed.
